(** * riptide-engine-docker: container builder and engine front-end

    A shallow embedding of [riptide_engine_docker/container_builder.py] and of
    the [start_project] / [address_for] entry points of
    [riptide_engine_docker/engine.py], with the properties of the
    specification proved (or refuted) on the embedding.

    Conventions.
    - Python [str] is [string]; [int] is [Z]; [str(n)] is stdpp's [pretty].
    - A Python [dict] keeps insertion order, and the command-line emitter
      iterates in that order, so a dict is an association list ([PyDict]);
      its content, when order is irrelevant, is the [gmap] it denotes.
    - Python exceptions are the [inl] side of a state-and-error monad.
    - List objects that are mutated in place live in a store of list
      objects addressed by reference. *)

From stdpp Require Import gmap strings list fin_maps pretty.

Open Scope string_scope.
Open Scope Z_scope.
Open Scope list_scope.

(* ===================================================================== *)
(** * Python strings *)
(* ===================================================================== *)

Module PyStr.

(** The one-character string holding a double quote. *)
Definition dquote : string := String (Ascii.ascii_of_nat 34) "".

(** ['"{0}"'.format(w)] and ['"%s"' % w]. *)
Definition quoted (w : string) : string := dquote +:+ w +:+ dquote.

(** [sep.join(l)]. *)
Definition join (sep : string) (l : list string) : string :=
  String.concat sep l.

(** [c.lower()] on one character (the ASCII letters). *)
Definition lower_ascii (c : Ascii.ascii) : Ascii.ascii :=
  let n := Ascii.nat_of_ascii c in
  if (65 <=? n)%nat && (n <=? 90)%nat then Ascii.ascii_of_nat (n + 32) else c.

(** [s.lower()]. *)
Fixpoint lower (s : string) : string :=
  match s with
  | EmptyString => EmptyString
  | String c r => String (lower_ascii c) (lower r)
  end.

(** [s.startswith(p)]. *)
Definition startswith (s p : string) : bool := String.prefix p s.

(** [s.endswith(p)]: used in statements only. *)
Definition endswith (s p : string) : bool :=
  String.prefix (String.rev p) (String.rev s).

(** Truth value of a string: [bool(s)]. *)
Definition truthy (s : string) : bool :=
  match s with EmptyString => false | _ => true end.

(** Truth value of an attribute that is [None] or a string. *)
Definition truthy_opt (o : option string) : bool :=
  match o with None => false | Some s => truthy s end.

End PyStr.

(* ===================================================================== *)
(** * Python dictionaries: insertion-ordered association lists *)
(* ===================================================================== *)

Module PyDict.
Section dict.
Context {K V : Type} `{EqDecision K}.

Definition t := list (K * V).

Definition empty : t := [].

(** [d[k] = v]: an existing key keeps its position, a new key goes last. *)
Fixpoint set (d : t) (k : K) (v : V) : t :=
  match d with
  | [] => [(k, v)]
  | (k', v') :: r =>
      if decide (k' = k) then (k', v) :: r else (k', v') :: set r k v
  end.

(** [d.get(k)]. *)
Fixpoint get (d : t) (k : K) : option V :=
  match d with
  | [] => None
  | (k', v') :: r => if decide (k' = k) then Some v' else get r k
  end.

(** [k in d]. *)
Definition mem (d : t) (k : K) : bool :=
  match get d k with Some _ => true | None => false end.

(** [d.items()], [d.values()], in insertion order. *)
Definition items (d : t) : list (K * V) := d.
Definition values (d : t) : list V := map snd d.

(** [d.update(e)]. *)
Definition update (d e : t) : t :=
  fold_left (fun acc kv => set acc (fst kv) (snd kv)) (items e) d.

End dict.
Arguments t : clear implicits.

(** The content of a dict, forgetting insertion order. *)
Definition content {K V : Type} `{Countable K} (d : t K V) : gmap K V :=
  list_to_map d.

End PyDict.

(* ===================================================================== *)
(** * Exceptions, and the state-and-error monad *)
(* ===================================================================== *)

Inductive exn : Type :=
| KeyError
| IndexError
| APIError (msg : string).

(** A computation reads and updates a state of type [S] and either
    returns a value or raises; the state reached when it raises is kept,
    as a Python [except] clause sees it. *)
Definition M (S A : Type) : Type := S -> (exn + A) * S.

#[global] Instance M_ret {S} : MRet (M S) := fun A a s => (inr a, s).

#[global] Instance M_bind {S} : MBind (M S) := fun A B k c s =>
  match c s with
  | (inl e, s') => (inl e, s')
  | (inr a, s') => k a s'
  end.

Definition raise {S A} (e : exn) : M S A := fun s => (inl e, s).

Definition modify {S} (f : S -> S) : M S unit := fun s => (inr tt, f s).

(** [try: c except E1: h except E2: h]: the handlers of the source all
    return the same value, so one handler serves every caught class. *)
Definition try_except {S A} (c : M S A) (catches : exn -> bool) (h : M S A)
  : M S A :=
  fun s => match c s with
           | (inl e, s') => if catches e then h s' else (inl e, s')
           | r => r
           end.

(** [acc = init; for x in xs: acc = body(acc, x)]: a loop whose body
    updates local variables [acc] and the state. *)
Fixpoint for_loop {S A B} (xs : list A) (body : B -> A -> M S B) (acc : B)
  : M S B :=
  match xs with
  | [] => mret acc
  | x :: r => acc' ← body acc x; for_loop r body acc'
  end.

(** [d[k]] as an expression: raises [KeyError] on a missing key. *)
Definition subscript {S K V} `{EqDecision K} (d : PyDict.t K V) (k : K) : M S V :=
  match PyDict.get d k with
  | Some v => mret v
  | None => raise KeyError
  end.

(* ===================================================================== *)
(** * The store of list objects *)
(* ===================================================================== *)

(** A Python list that is mutated in place is an object with an identity.
    The store maps every reference to the current content of its list. *)
Definition ref := nat.
Definition store := ref -> list string.

(** The store in which the list at [r] now holds [v]. *)
Definition store_set (h : store) (r : ref) (v : list string) : store :=
  fun r' => if decide (r' = r) then v else h r'.

(** [l.pop(0)]. *)
Definition list_pop0 (r : ref) : M store string := fun h =>
  match h r with
  | [] => (inl IndexError, h)
  | x :: rest => (inr x, store_set h r rest)
  end.

(** Reading the current content of a list object. *)
Definition list_read (r : ref) : M store (list string) := fun h => (inr (h r), h).

(* ===================================================================== *)
(** * container_builder.py: constants *)
(* ===================================================================== *)

Definition RIPTIDE_DOCKER_LABEL_IS_RIPTIDE : string := "riptide".
Definition RIPTIDE_DOCKER_LABEL_SERVICE : string := "riptide_service".
Definition RIPTIDE_DOCKER_LABEL_PROJECT : string := "riptide_project".
Definition RIPTIDE_DOCKER_LABEL_MAIN : string := "riptide_main".
Definition RIPTIDE_DOCKER_LABEL_HTTP_PORT : string := "riptide_port".

Definition ENTRYPOINT_CONTAINER_PATH : string := "/entrypoint_riptide.sh".
Definition EENV_DONT_RUN_CMD : string := "RIPTIDE__DOCKER_DONT_RUN_CMD".
Definition EENV_USER : string := "RIPTIDE__DOCKER_USER".
Definition EENV_USER_RUN : string := "RIPTIDE__DOCKER_USER_RUN".
Definition EENV_GROUP : string := "RIPTIDE__DOCKER_GROUP".
Definition EENV_RUN_MAIN_CMD_AS_USER : string := "RIPTIDE__DOCKER_RUN_MAIN_CMD_AS_USER".
Definition EENV_ORIGINAL_ENTRYPOINT : string := "RIPTIDE__DOCKER_ORIGINAL_ENTRYPOINT".
Definition EENV_COMMAND_LOG_PREFIX : string := "RIPTIDE__DOCKER_CMD_LOGGING_".
Definition EENV_NO_STDOUT_REDIRECT : string := "RIPTIDE__DOCKER_NO_STDOUT_REDIRECT".

Definition DOCKER_ENGINE_HTTP_PORT_BND_START : Z := 30000.

(* ===================================================================== *)
(** * The data the builder consumes *)
(* ===================================================================== *)

(** [docker.types.Mount]: a dict with these keys. *)
Record Mount : Type := mkMount {
  Target : string;
  Source : string;
  Type_ : string;
  ReadOnly : bool;
  Consistency : string
}.

(** The command of a container: [Union[str, list]]. *)
Inductive command_value : Type :=
| CmdStr (s : string)
| CmdList (l : list string).

(** The [Entrypoint] entry of an image configuration: absent ([None]), a
    list object (exec form) or a string (shell form). *)
Inductive entrypoint_value : Type :=
| EpNone
| EpList (r : ref)
| EpStr (s : string).

(** The image configuration, as far as the builder reads it:
    [image_config["Entrypoint"]] and the optional key ["User"]. *)
Record ImageConfig : Type := mkImageConfig {
  ic_Entrypoint : entrypoint_value;
  ic_User : option string
}.

(** One declared volume: [volume['bind']] and [volume['mode']] (which may
    be [None]). *)
Record Volume : Type := mkVolume {
  vol_bind : string;
  vol_mode : option string
}.

(** A service document of the configuration layer, as far as the builder
    and the engine read it.  Optional keys are [option]s: [svc_port] is
    [service["port"]] when ["port" in service]; [svc_roles] is
    [service["roles"]]; [svc_logging] is [service["logging"]], itself
    with an optional ["commands"] entry.  The three [collect_*] methods
    and [get_project()["name"]] belong to the configuration layer; the
    fields below hold what they return. *)
Record Service : Type := mkService {
  svc_name : string;
  svc_project_name : string;
  svc_port : option Z;
  svc_dont_create_user : bool;
  svc_run_as_current_user : bool;
  svc_roles : option (list string);
  svc_logging : option (option (PyDict.t string string));
  svc_volumes : PyDict.t string Volume;
  svc_environment : PyDict.t string string;
  svc_ports : PyDict.t Z Z
}.

(** A command document, as far as the builder reads it. *)
Record Command : Type := mkCommand {
  cmd_volumes : PyDict.t string Volume;
  cmd_environment : PyDict.t string string
}.

(** [Union[Service, Command]]: what [_init_common] needs of a document. *)
Class Document (D : Type) : Type := {
  collect_volumes : D -> PyDict.t string Volume;
  collect_environment : D -> PyDict.t string string
}.

#[global] Instance Service_Document : Document Service :=
  {| collect_volumes := svc_volumes; collect_environment := svc_environment |}.

#[global] Instance Command_Document : Document Command :=
  {| collect_volumes := cmd_volumes; collect_environment := cmd_environment |}.

(** The host the builder runs on: the directory of the packaged assets,
    [getuid()], [getgid()] and [platform.system()]. *)
Record Host : Type := mkHost {
  riptide_engine_docker_assets_dir : string;
  getuid : Z;
  getgid : Z;
  platform_system : string
}.

(** [os.path.join(a, b)] for a relative [b]. *)
Definition os_path_join (a b : string) : string :=
  if PyStr.truthy a
  then if PyStr.endswith a "/" then a +:+ b else a +:+ "/" +:+ b
  else b.

(* ===================================================================== *)
(** * container_builder.py: class ContainerBuilder *)
(* ===================================================================== *)

Record ContainerBuilder : Type := mkContainerBuilder {
  env : PyDict.t string string;
  labels : PyDict.t string string;
  mounts : PyDict.t string Mount;
  ports : PyDict.t Z Z;
  network : option string;
  name : option string;
  entrypoint : option string;
  command : command_value;
  args : list string;
  work_dir : option string;
  image : string;
  run_as_root : bool;
  hostname : option string
}.

(** Attribute assignments [self.x = v]. *)
Definition with_env (b : ContainerBuilder) v : ContainerBuilder :=
  mkContainerBuilder v (labels b) (mounts b) (ports b) (network b) (name b)
    (entrypoint b) (command b) (args b) (work_dir b) (image b) (run_as_root b)
    (hostname b).
Definition with_labels (b : ContainerBuilder) v : ContainerBuilder :=
  mkContainerBuilder (env b) v (mounts b) (ports b) (network b) (name b)
    (entrypoint b) (command b) (args b) (work_dir b) (image b) (run_as_root b)
    (hostname b).
Definition with_mounts (b : ContainerBuilder) v : ContainerBuilder :=
  mkContainerBuilder (env b) (labels b) v (ports b) (network b) (name b)
    (entrypoint b) (command b) (args b) (work_dir b) (image b) (run_as_root b)
    (hostname b).
Definition with_ports (b : ContainerBuilder) v : ContainerBuilder :=
  mkContainerBuilder (env b) (labels b) (mounts b) v (network b) (name b)
    (entrypoint b) (command b) (args b) (work_dir b) (image b) (run_as_root b)
    (hostname b).
Definition with_network (b : ContainerBuilder) v : ContainerBuilder :=
  mkContainerBuilder (env b) (labels b) (mounts b) (ports b) v (name b)
    (entrypoint b) (command b) (args b) (work_dir b) (image b) (run_as_root b)
    (hostname b).
Definition with_name (b : ContainerBuilder) v : ContainerBuilder :=
  mkContainerBuilder (env b) (labels b) (mounts b) (ports b) (network b) v
    (entrypoint b) (command b) (args b) (work_dir b) (image b) (run_as_root b)
    (hostname b).
Definition with_entrypoint (b : ContainerBuilder) v : ContainerBuilder :=
  mkContainerBuilder (env b) (labels b) (mounts b) (ports b) (network b) (name b)
    v (command b) (args b) (work_dir b) (image b) (run_as_root b) (hostname b).
Definition with_args (b : ContainerBuilder) v : ContainerBuilder :=
  mkContainerBuilder (env b) (labels b) (mounts b) (ports b) (network b) (name b)
    (entrypoint b) (command b) v (work_dir b) (image b) (run_as_root b)
    (hostname b).
Definition with_work_dir (b : ContainerBuilder) v : ContainerBuilder :=
  mkContainerBuilder (env b) (labels b) (mounts b) (ports b) (network b) (name b)
    (entrypoint b) (command b) (args b) v (image b) (run_as_root b) (hostname b).
Definition with_run_as_root (b : ContainerBuilder) v : ContainerBuilder :=
  mkContainerBuilder (env b) (labels b) (mounts b) (ports b) (network b) (name b)
    (entrypoint b) (command b) (args b) (work_dir b) (image b) v (hostname b).
Definition with_hostname (b : ContainerBuilder) v : ContainerBuilder :=
  mkContainerBuilder (env b) (labels b) (mounts b) (ports b) (network b) (name b)
    (entrypoint b) (command b) (args b) (work_dir b) (image b) (run_as_root b) v.

Definition set_env (b : ContainerBuilder) (name val : string) : ContainerBuilder :=
  with_env b (PyDict.set (env b) name val).

Definition set_label (b : ContainerBuilder) (name val : string) : ContainerBuilder :=
  with_labels b (PyDict.set (labels b) name val).

Definition set_mount (b : ContainerBuilder) (host_path container_path mode : string)
  : ContainerBuilder :=
  with_mounts b
    (PyDict.set (mounts b) host_path
       {| Target := container_path;
          Source := host_path;
          Type_ := "bind";
          ReadOnly := bool_decide (mode = "ro");
          Consistency := "delegated" |}).

Definition set_port (b : ContainerBuilder) (cnt host : Z) : ContainerBuilder :=
  with_ports b (PyDict.set (ports b) cnt host).

Definition set_network (b : ContainerBuilder) (network : string) : ContainerBuilder :=
  with_network b (Some network).

Definition set_name (b : ContainerBuilder) (name : string) : ContainerBuilder :=
  with_name b (Some name).

Definition set_entrypoint (b : ContainerBuilder) (entrypoint : string)
  : ContainerBuilder :=
  with_entrypoint b (Some entrypoint).

Definition set_args (b : ContainerBuilder) (args : list string) : ContainerBuilder :=
  with_args b args.

Definition set_workdir (b : ContainerBuilder) (work_dir : string) : ContainerBuilder :=
  with_work_dir b (Some work_dir).

Definition set_hostname (b : ContainerBuilder) (hostname : string) : ContainerBuilder :=
  with_hostname b (Some hostname).

(** [ContainerBuilder.__init__(image, command)]. *)
Definition ContainerBuilder_init (image : string) (command : command_value)
  : ContainerBuilder :=
  let self :=
    {| env := PyDict.empty; labels := PyDict.empty; mounts := PyDict.empty;
       ports := PyDict.empty; network := None; name := None;
       entrypoint := None; command := command; args := [];
       work_dir := None; image := image; run_as_root := false;
       hostname := None |} in
  set_label self RIPTIDE_DOCKER_LABEL_IS_RIPTIDE "1".

(* ===================================================================== *)
(** * container_builder.py: module-level functions *)
(* ===================================================================== *)

Definition get_cmd_container_name (getpid : Z) (project_name command_name : string)
  : string :=
  "riptide__" +:+ project_name +:+ "__cmd__" +:+ command_name +:+ "__"
    +:+ pretty getpid.

Definition get_network_name (project_name : string) : string :=
  "riptide__" +:+ project_name.

Definition get_service_container_name (project_name service_name : string)
  : string :=
  "riptide__" +:+ project_name +:+ "__" +:+ service_name.

(** [parse_entrypoint(entrypoint)].  The test [not entrypoint] holds for
    [None], for an empty list and for an empty string. *)
Definition parse_entrypoint (entrypoint : entrypoint_value)
  : M store (PyDict.t string string) :=
  match entrypoint with
  | EpNone => mret [(EENV_ORIGINAL_ENTRYPOINT, "")]
  | EpList r =>
      now ← list_read r;
      match now with
      | [] => mret [(EENV_ORIGINAL_ENTRYPOINT, "")]
      | _ =>
          command ← list_pop0 r;
          rest ← list_read r;
          let arguments := PyStr.join " " (map PyStr.quoted rest) in
          mret [(EENV_ORIGINAL_ENTRYPOINT, command +:+ " " +:+ arguments)]
      end
  | EpStr s =>
      if PyStr.truthy s
      then mret [(EENV_ORIGINAL_ENTRYPOINT, "/bin/sh -c " +:+ s);
                 (EENV_DONT_RUN_CMD, "true")]
      else mret [(EENV_ORIGINAL_ENTRYPOINT, "")]
  end.

Definition service_collect_logging_commands (service : Service)
  : PyDict.t string string :=
  match svc_logging service with
  | Some (Some commands) =>
      fold_left
        (fun environment kv =>
           PyDict.set environment (EENV_COMMAND_LOG_PREFIX +:+ fst kv) (snd kv))
        (PyDict.items commands) PyDict.empty
  | _ => PyDict.empty
  end.

Definition service_collect_entrypoint_user_settings
    (service : Service) (user user_group : Z) (image_config : ImageConfig)
  : PyDict.t string string :=
  let environment : PyDict.t string string := PyDict.empty in
  let environment :=
    if negb (svc_dont_create_user service)
    then PyDict.set (PyDict.set environment EENV_USER (pretty user))
           EENV_GROUP (pretty user_group)
    else environment in
  if svc_run_as_current_user service
  then PyDict.set environment EENV_RUN_MAIN_CMD_AS_USER "yes"
  else
    match ic_User image_config with
    | Some u =>
        if bool_decide (u ≠ "")
        then PyDict.set (PyDict.set environment EENV_RUN_MAIN_CMD_AS_USER "yes")
               EENV_USER_RUN u
        else environment
    | None => environment
    end.

Definition service_collect_labels (service : Service) (project_name : string)
  : PyDict.t string string :=
  let labels : PyDict.t string string :=
    [(RIPTIDE_DOCKER_LABEL_IS_RIPTIDE, "1");
     (RIPTIDE_DOCKER_LABEL_PROJECT, project_name);
     (RIPTIDE_DOCKER_LABEL_SERVICE, svc_name service);
     (RIPTIDE_DOCKER_LABEL_MAIN, "0")] in
  match svc_roles service with
  | Some roles =>
      if bool_decide ("main" ∈ roles)
      then PyDict.set labels RIPTIDE_DOCKER_LABEL_MAIN "1"
      else labels
  | None => labels
  end.

(* ===================================================================== *)
(** * container_builder.py: the initialisers of ContainerBuilder *)
(* ===================================================================== *)

(** [for key, val in d.items(): self.set_env(key, val)], and its siblings. *)
Definition set_env_all (b : ContainerBuilder) (d : PyDict.t string string)
  : ContainerBuilder :=
  fold_left (fun self kv => set_env self (fst kv) (snd kv)) (PyDict.items d) b.

Definition set_label_all (b : ContainerBuilder) (d : PyDict.t string string)
  : ContainerBuilder :=
  fold_left (fun self kv => set_label self (fst kv) (snd kv)) (PyDict.items d) b.

Definition set_port_all (b : ContainerBuilder) (d : PyDict.t Z Z)
  : ContainerBuilder :=
  fold_left (fun self kv => set_port self (fst kv) (snd kv)) (PyDict.items d) b.

(** [volume['mode'] or 'rw']. *)
Definition mode_or_rw (mode : option string) : string :=
  if PyStr.truthy_opt mode then default "rw" mode else "rw".

Definition set_mount_all (b : ContainerBuilder) (d : PyDict.t string Volume)
  : ContainerBuilder :=
  fold_left
    (fun self hv =>
       set_mount self (fst hv) (vol_bind (snd hv)) (mode_or_rw (vol_mode (snd hv))))
    (PyDict.items d) b.

Definition enable_riptide_entrypoint
    (host : Host) (image_config : ImageConfig) (b : ContainerBuilder)
  : M store ContainerBuilder :=
  let self := with_run_as_root b true in
  let entrypoint_script :=
    os_path_join (riptide_engine_docker_assets_dir host) "entrypoint.sh" in
  let self := set_mount self entrypoint_script ENTRYPOINT_CONTAINER_PATH "ro" in
  settings ← parse_entrypoint (ic_Entrypoint image_config);
  let self := set_env_all self settings in
  mret (set_entrypoint self ENTRYPOINT_CONTAINER_PATH).

Definition _init_common {D} `{Document D}
    (host : Host) (doc : D) (image_config : ImageConfig) (b : ContainerBuilder)
  : M store ContainerBuilder :=
  self ← enable_riptide_entrypoint host image_config b;
  let self := set_mount_all self (collect_volumes doc) in
  mret (set_env_all self (collect_environment doc)).

Definition init_from_service
    (host : Host) (service : Service) (image_config : ImageConfig)
    (b : ContainerBuilder)
  : M store ContainerBuilder :=
  self ← _init_common host service image_config b;
  let labels := service_collect_labels service (svc_project_name service) in
  let ports := svc_ports service in
  let environment_updates := service_collect_logging_commands service in
  let environment_updates :=
    PyDict.update environment_updates
      (service_collect_entrypoint_user_settings
         service (getuid host) (getgid host) image_config) in
  let self := set_env_all self environment_updates in
  let self := set_label_all self labels in
  mret (set_port_all self ports).

(** [service_add_main_port(service)].  The port allocator
    [find_open_port_starting_at] belongs to the configuration layer; it
    probes the host, so the caller of the model supplies it. *)
Definition service_add_main_port
    (find_open_port_starting_at : Z -> Z) (service : Service)
    (b : ContainerBuilder)
  : ContainerBuilder :=
  match svc_port service with
  | Some port =>
      let main_port := find_open_port_starting_at DOCKER_ENGINE_HTTP_PORT_BND_START in
      let self := set_label b RIPTIDE_DOCKER_LABEL_HTTP_PORT (pretty main_port) in
      set_port self port main_port
  | None => b
  end.

Definition init_from_command
    (host : Host) (command : Command) (image_config : ImageConfig)
    (b : ContainerBuilder)
  : M store ContainerBuilder :=
  _init_common host command image_config b.

(* ===================================================================== *)
(** * container_builder.py: the two emitters *)
(* ===================================================================== *)

(** The keyword arguments of [containers.run].  An optional key is an
    [option]. *)
Record ApiArgs : Type := mkApiArgs {
  arg_detach : bool;
  arg_remove : bool;
  arg_image : string;
  arg_command : command_value;
  arg_name : option string;
  arg_network : option string;
  arg_entrypoint : option (list string);
  arg_working_dir : option string;
  arg_user : option Z;
  arg_hostname : option string;
  arg_environment : PyDict.t string string;
  arg_labels : PyDict.t string string;
  arg_ports : PyDict.t Z Z;
  arg_mounts : list Mount
}.

(** [command] as one string: a list is joined with spaces. *)
Definition str_command (c : command_value) : string :=
  match c with
  | CmdStr s => s
  | CmdList l => PyStr.join " " l
  end.

(** [" ".join('"{0}"'.format(w) for w in self.args)]. *)
Definition quoted_args (args : list string) : string :=
  PyStr.join " " (map PyStr.quoted args).

(** An attribute that is set (truthy), as the value to emit. *)
Definition if_set (o : option string) : option string :=
  if PyStr.truthy_opt o then o else None.

Definition build_docker_api (detach remove : bool) (b : ContainerBuilder)
  : ApiArgs :=
  {| arg_detach := detach;
     arg_remove := remove;
     arg_image := image b;
     arg_command :=
       if (0 <? length (args b))%nat
       then CmdStr (str_command (command b) +:+ " " +:+ quoted_args (args b))
       else command b;
     arg_name := if_set (name b);
     arg_network := if_set (network b);
     arg_entrypoint :=
       if PyStr.truthy_opt (entrypoint b)
       then Some [default "" (entrypoint b)] else None;
     arg_working_dir := if_set (work_dir b);
     arg_user := if run_as_root b then Some 0 else None;
     arg_hostname := if_set (hostname b);
     arg_environment := env b;
     arg_labels := labels b;
     arg_ports := ports b;
     arg_mounts := PyDict.values (mounts b) |}.

(** [shell += [flag, self.x]] under [if self.x:]. *)
Definition add_if_set (shell : list string) (flag : string) (o : option string)
  : list string :=
  if PyStr.truthy_opt o then shell ++ [flag; default "" o] else shell.

(** [platform.system().lower().startswith('mac')]. *)
Definition is_mac (host : Host) : bool :=
  PyStr.startswith (PyStr.lower (platform_system host)) "mac".

Definition build_docker_cli (host : Host) (b : ContainerBuilder) : list string :=
  let shell := ["docker"; "run"; "--rm"; "-it"] in
  let shell := add_if_set shell "--name" (name b) in
  let shell := add_if_set shell "--network" (network b) in
  let shell := add_if_set shell "--entrypoint" (entrypoint b) in
  let shell := add_if_set shell "-w" (work_dir b) in
  let shell := if run_as_root b then shell ++ ["-u"; pretty 0] else shell in
  let shell := add_if_set shell "--hostname" (hostname b) in
  let shell :=
    fold_left (fun shell kv => shell ++ ["-e"; fst kv +:+ "=" +:+ snd kv])
      (PyDict.items (env b)) shell in
  let shell :=
    fold_left (fun shell kv => shell ++ ["--label"; fst kv +:+ "=" +:+ snd kv])
      (PyDict.items (labels b)) shell in
  let shell :=
    fold_left
      (fun shell ch => shell ++ ["-p"; pretty (snd ch) +:+ ":" +:+ pretty (fst ch)])
      (PyDict.items (ports b)) shell in
  let mac_add := if is_mac host then ":delegated" else "" in
  let shell :=
    fold_left
      (fun shell mount =>
         let mode := if ReadOnly mount then "ro" else "rw" in
         shell ++ ["-v";
                   Source mount +:+ ":" +:+ Target mount +:+ ":" +:+ mode +:+ mac_add])
      (PyDict.values (mounts b)) shell in
  let command := str_command (command b) in
  shell ++ [image b; command +:+ " " +:+ quoted_args (args b)].

(* ===================================================================== *)
(** * engine.py: the runtime the engine talks to *)
(* ===================================================================== *)

(** A project document, as far as the engine reads it: [project["name"]]
    and [project["app"]["services"]]. *)
Record Project : Type := mkProject {
  proj_name : string;
  proj_services : PyDict.t string Service
}.

(** A project document whose [project["app"]] may lack the key
    ["services"], as [pull_images] allows for: [project["name"]] and the
    services under [project["app"]], when the key is there. *)
Record ProjectDocument : Type := mkProjectDocument {
  doc_name : string;
  doc_services : option (PyDict.t string Service)
}.

(** The document of a project that has the key ["services"]. *)
Definition document_of (project : Project) : ProjectDocument :=
  {| doc_name := proj_name project;
     doc_services := Some (proj_services project) |}.

(** A container as the Docker client reports it. *)
Record Container : Type := mkContainer {
  status : string;
  container_labels : PyDict.t string string
}.

(** A [ResultQueue] of the configuration layer: open, or ended with a
    [ResultError]. *)
Inductive queue_state : Type :=
| QueueOpen
| QueueEndedWithError (message : string).

(** One call of [loop.run_in_executor(None, service.start, ...)]: the
    arguments handed to the worker pool. *)
Record StartTask : Type := mkStartTask {
  task_project_name : string;
  task_service : Service;
  task_command_group : string;
  task_queue : nat;
  task_quick : bool
}.

(** What the engine acts on: the Docker daemon behind [self.client]
    (a lookup of a container by name either fails with an [APIError],
    [NotFound] included, or returns the container), the project networks
    that exist, the [ResultQueue] objects allocated so far and the tasks
    submitted to the worker pool of the event loop, oldest first. *)
Record World : Type := mkWorld {
  docker_containers : string -> string + Container;
  networks : gset string;
  next_queue : nat;
  queues : gmap nat queue_state;
  executor : list StartTask
}.

(** [self.client.containers.get(name)]. *)
Definition containers_get (name : string) : M World Container := fun w =>
  match docker_containers w name with
  | inl msg => (inl (APIError msg), w)
  | inr c => (inr c, w)
  end.

(** Modelled from the spec: [network.start] of this package's [network]
    module, which the specification describes as ensuring that the
    project network exists, idempotently. *)
Definition network_start (project_name : string) : M World unit :=
  modify (fun w =>
    mkWorld (docker_containers w) ({[get_network_name project_name]} ∪ networks w)
      (next_queue w) (queues w) (executor w)).

(** [ResultQueue()]: a fresh, open queue object. *)
Definition ResultQueue_new : M World nat := fun w =>
  (inr (next_queue w),
   mkWorld (docker_containers w) (networks w) (S (next_queue w))
     (<[next_queue w := QueueOpen]> (queues w)) (executor w)).

(** [queue.end_with_error(ResultError(message))]. *)
Definition end_with_error (queue : nat) (message : string) : M World unit :=
  modify (fun w =>
    mkWorld (docker_containers w) (networks w) (next_queue w)
      (<[queue := QueueEndedWithError message]> (queues w)) (executor w)).

(** [loop.run_in_executor(None, service.start, ...)]: the call is handed
    to the pool and the caller goes on. *)
Definition run_in_executor (task : StartTask) : M World unit :=
  modify (fun w =>
    mkWorld (docker_containers w) (networks w) (next_queue w) (queues w)
      (executor w ++ [task])).

(* ===================================================================== *)
(** * engine.py: class DockerEngine *)
(* ===================================================================== *)

(** [project["app"]["services"]]: raises [KeyError] when the key is
    missing. *)
Definition app_services {S} (project : ProjectDocument)
  : M S (PyDict.t string Service) :=
  match doc_services project with
  | Some services => mret services
  | None => raise KeyError
  end.

(** [start_project]: first the body of its [for] loop, then the method.
    The result is the dict handed to [MultiResultQueue]: queue object to
    service name.  The context manager [riptide_start_project_ctx] is
    owned by the configuration layer and does not touch the state
    modelled here. *)
Definition start_project_body
    (project : ProjectDocument) (quick : bool) (command_group : string)
    (queues : PyDict.t nat string) (service_name : string)
  : M World (PyDict.t nat string) :=
  queue ← ResultQueue_new;
  let queues := PyDict.set queues queue service_name in
  declared ← app_services project;
  if PyDict.mem declared service_name
  then
    declared ← app_services project;
    service ← subscript declared service_name;
    run_in_executor
      {| task_project_name := doc_name project;
         task_service := service;
         task_command_group := command_group;
         task_queue := queue;
         task_quick := quick |};;
    mret queues
  else
    end_with_error queue "Service not found.";;
    mret queues.

Definition start_project
    (project : ProjectDocument) (services : list string) (quick : bool)
    (command_group : string)
  : M World (PyDict.t nat string) :=
  network_start (doc_name project);;
  for_loop services (start_project_body project quick command_group)
    PyDict.empty.

Definition container_name_for (project : Project) (service_name : string)
  : string :=
  get_service_container_name (proj_name project) service_name.

(** The exception classes the two [except] clauses of [address_for] name. *)
Definition is_KeyError_or_APIError (e : exn) : bool :=
  match e with
  | KeyError | APIError _ => true
  | IndexError => false
  end.

(** [address_for].  The port is the label value, a string. *)
Definition address_for (project : Project) (service_name : string)
  : M World (option (string * string)) :=
  service ← subscript (proj_services project) service_name;
  if negb (bool_decide (is_Some (svc_port service)))
  then mret None
  else
    let container_name :=
      get_service_container_name (proj_name project) service_name in
    try_except
      (container ← containers_get container_name;
       if bool_decide (status container ≠ "running")
       then mret None
       else
         port ← subscript (container_labels container)
                  RIPTIDE_DOCKER_LABEL_HTTP_PORT;
         mret (Some ("127.0.0.1", port)))
      is_KeyError_or_APIError
      (mret None).

(* ===================================================================== *)
(** * engine.py: stopping a project *)
(* ===================================================================== *)

(** One call of [loop.run_in_executor(None, service.stop, ...)]: the
    arguments handed to the worker pool. *)
Record StopTask : Type := mkStopTask {
  stop_project_name : string;
  stop_service_name : string;
  stop_queue : nat
}.

(** The world together with the stop calls handed to the pool, oldest
    first. *)
Definition StopWorld : Type := World * list StopTask.

(** A computation on the world, run inside the larger state. *)
Definition on_world {A} (c : M World A) : M StopWorld A := fun s =>
  match c (fst s) with
  | (r, w') => (r, (w', snd s))
  end.

(** [loop.run_in_executor(None, service.stop, ...)]. *)
Definition run_stop_in_executor (task : StopTask) : M StopWorld unit :=
  modify (fun s => (fst s, snd s ++ [task])).

(** [stop_project]: first the body of its [for] loop, then the method. *)
Definition stop_project_body
    (project : Project) (queues : PyDict.t nat string) (service_name : string)
  : M StopWorld (PyDict.t nat string) :=
  queue ← on_world ResultQueue_new;
  let queues := PyDict.set queues queue service_name in
  run_stop_in_executor
    {| stop_project_name := proj_name project;
       stop_service_name := service_name;
       stop_queue := queue |};;
  mret queues.

Definition stop_project (project : Project) (services : list string)
  : M StopWorld (PyDict.t nat string) :=
  for_loop services (stop_project_body project) PyDict.empty.

(* ===================================================================== *)
(** * engine.py: pulling images *)
(* ===================================================================== *)

(** The one-character string holding a line feed. *)
Definition nl : string := String (Ascii.ascii_of_nat 10) "".

(** [sub in s] on strings. *)
Fixpoint contains (sub s : string) : bool :=
  if String.prefix sub s then true
  else match s with
       | EmptyString => false
       | String _ r => contains sub r
       end.

(** [image if ":" in image else image + ":latest"]. *)
Definition image_with_tag (image : string) : string :=
  if contains ":" image then image else image +:+ ":latest".

(** What [pull_images] reads of [project["app"]]: the optional key
    ["services"], name to image, and the optional key ["commands"], name
    to the image of the command when it has the key ["image"]. *)
Record PullApp : Type := mkPullApp {
  pa_services : option (PyDict.t string string);
  pa_commands : option (PyDict.t string (option string))
}.

(** What [self.client.api.pull(image, stream=True)] does when iterated:
    it yields these lines and then, if [stream_error] is set, raises an
    [APIError] whose text is that string. *)
Record PullStream : Type := mkPullStream {
  stream_lines : list string;
  stream_error : option string
}.

(** The collaborators of a pull: the registry behind the client, and
    [json.loads] on a progress line ([None] for a [JSONDecodeError]). *)
Record PullClient : Type := mkPullClient {
  client_api_pull : string → PullStream;
  json_loads : string → option (PyDict.t string string)
}.

(** What a pull leaves behind: the messages given to [update_func] and
    the image references handed to the client, oldest first. *)
Record PullLog : Type := mkPullLog {
  messages : list string;
  pulled : list string
}.

Definition update_func (msg : string) : M PullLog unit :=
  modify (fun l => mkPullLog (messages l ++ [msg]) (pulled l)).

Definition start_pull (image_name : string) : M PullLog unit :=
  modify (fun l => mkPullLog (messages l) (pulled l ++ [image_name])).

(** [try: c except APIError as ex: h(ex)]. *)
Definition try_except_APIError {S A} (c : M S A) (h : string → M S A) : M S A :=
  fun s => match c s with
           | (inl (APIError msg), s') => h msg s'
           | r => r
           end.

(** The text shown for one progress line. *)
Definition pull_line_update (c : PullClient) (line : string) : M PullLog string :=
  match json_loads c line with
  | Some status =>
      if PyDict.mem status "progress"
      then
        s ← subscript status "status";
        p ← subscript status "progress";
        mret (s +:+ " : " +:+ p)
      else subscript status "status"
  | None => mret line
  end.

Definition __pull_image (c : PullClient) (image_name line_reset : string)
  : M PullLog unit :=
  try_except_APIError
    (start_pull image_name;;
     for_loop (stream_lines (client_api_pull c image_name))
       (fun _ line =>
          update ← pull_line_update c line;
          update_func (line_reset +:+ "    " +:+ update))
       tt;;
     match stream_error (client_api_pull c image_name) with
     | Some msg => raise (APIError msg)
     | None => mret tt
     end;;
     update_func (line_reset +:+ "    Done!" +:+ nl))
    (fun ex =>
       if contains "404 Client Error" ex
       then update_func
              (line_reset +:+ "    Warning: Image not found in repository." +:+ nl)
       else raise (APIError ex)).

Definition pull_images (c : PullClient) (app : PullApp) (line_reset : string)
  : M PullLog unit :=
  match pa_services app with
  | Some services =>
      for_loop (PyDict.items services)
        (fun _ ns =>
           update_func ("[service/" +:+ fst ns +:+ "] Pulling '" +:+ snd ns
                        +:+ "':" +:+ nl);;
           __pull_image c (image_with_tag (snd ns)) line_reset)
        tt
  | None => mret tt
  end;;
  match pa_commands app with
  | Some commands =>
      for_loop (PyDict.items commands)
        (fun _ nc =>
           match snd nc with
           | Some image =>
               update_func ("[command/" +:+ fst nc +:+ "] Pulling '" +:+ image
                            +:+ "':" +:+ nl);;
               __pull_image c (image_with_tag image) line_reset
           | None => mret tt
           end)
        tt
  | None => mret tt
  end;;
  update_func ("Done!" +:+ nl +:+ nl).

(* ===================================================================== *)
(** * Sequences of map-valued mutator calls *)
(* ===================================================================== *)

(** One call of a map-valued mutator of the builder. *)
Inductive Call : Type :=
| SetEnv (name val : string)
| SetLabel (name val : string)
| SetMount (host_path container_path mode : string)
| SetPort (cnt host : Z).

Definition apply_call (b : ContainerBuilder) (c : Call) : ContainerBuilder :=
  match c with
  | SetEnv k v => set_env b k v
  | SetLabel k v => set_label b k v
  | SetMount h c m => set_mount b h c m
  | SetPort c h => set_port b c h
  end.

Definition apply_calls (b : ContainerBuilder) (cs : list Call) : ContainerBuilder :=
  fold_left apply_call cs b.

(** What a call writes into each of the four maps: the key and the value
    stored, if the call addresses that map. *)
Definition env_write (c : Call) : option (string * string) :=
  match c with SetEnv k v => Some (k, v) | _ => None end.

Definition label_write (c : Call) : option (string * string) :=
  match c with SetLabel k v => Some (k, v) | _ => None end.

Definition mount_write (c : Call) : option (string * Mount) :=
  match c with
  | SetMount h t m =>
      Some (h, mkMount t h "bind" (bool_decide (m = "ro")) "delegated")
  | _ => None
  end.

Definition port_write (c : Call) : option (Z * Z) :=
  match c with SetPort c h => Some (c, h) | _ => None end.

(** The value a key holds after a run of calls: the last one written, or
    else the one it had. *)
Definition last_or {V} (written old : option V) : option V :=
  match written with Some v => Some v | None => old end.

(** The value of the last call of [cs] that writes key [k], if any. *)
Fixpoint last_write {K V} `{EqDecision K}
    (write : Call -> option (K * V)) (cs : list Call) (k : K) : option V :=
  match cs with
  | [] => None
  | c :: r =>
      match last_write write r k with
      | Some v => Some v
      | None =>
          match write c with
          | Some (k', v) => if decide (k' = k) then Some v else None
          | None => None
          end
      end
  end.

(* ===================================================================== *)
(** * Sequences of builder operations *)
(* ===================================================================== *)

(** One call of a public method of the builder that changes it. *)
Inductive Op : Type :=
| OpCall (c : Call)
| OpSetNetwork (network : string)
| OpSetName (name : string)
| OpSetEntrypoint (entrypoint : string)
| OpSetArgs (args : list string)
| OpSetWorkdir (work_dir : string)
| OpSetHostname (hostname : string)
| OpEnableRiptideEntrypoint (image_config : ImageConfig)
| OpInitFromService (service : Service) (image_config : ImageConfig)
| OpServiceAddMainPort (find_open_port_starting_at : Z → Z) (service : Service)
| OpInitFromCommand (command : Command) (image_config : ImageConfig).

Definition run_op (host : Host) (b : ContainerBuilder) (op : Op)
  : M store ContainerBuilder :=
  match op with
  | OpCall c => mret (apply_call b c)
  | OpSetNetwork n => mret (set_network b n)
  | OpSetName n => mret (set_name b n)
  | OpSetEntrypoint e => mret (set_entrypoint b e)
  | OpSetArgs a => mret (set_args b a)
  | OpSetWorkdir w => mret (set_workdir b w)
  | OpSetHostname n => mret (set_hostname b n)
  | OpEnableRiptideEntrypoint ic => enable_riptide_entrypoint host ic b
  | OpInitFromService service ic => init_from_service host service ic b
  | OpServiceAddMainPort alloc service => mret (service_add_main_port alloc service b)
  | OpInitFromCommand command ic => init_from_command host command ic b
  end.

Definition run_ops (host : Host) (ops : list Op) (b : ContainerBuilder)
  : M store ContainerBuilder :=
  for_loop ops (run_op host) b.

(** The operation is a caller's [set_label] on the is-managed key. *)
Definition overwrites_marker (op : Op) : bool :=
  match op with
  | OpCall (SetLabel k _) => bool_decide (k = RIPTIDE_DOCKER_LABEL_IS_RIPTIDE)
  | _ => false
  end.

(* ===================================================================== *)
(** * The command line an argument bundle denotes *)
(* ===================================================================== *)

(** These definitions follow the specification of the command-line
    emitter, not its code: they render the options of the keyword
    arguments of [containers.run] as [docker run] tokens, one option per
    argument that is present.  They describe the shape of the token list
    in the lemmas below. *)

Definition cli_option (flag : string) (o : option string) : list string :=
  match o with
  | Some v => [flag; v]
  | None => []
  end.

Definition cli_mount (host : Host) (m : Mount) : list string :=
  ["-v"; Source m +:+ ":" +:+ Target m +:+ ":"
           +:+ (if ReadOnly m then "ro" else "rw")
           +:+ (if is_mac host then ":delegated" else "")].

Definition cli_switches (a : ApiArgs) : list string :=
  ["docker"; "run"; "--rm"; "-it"]
  ++ cli_option "--name" (arg_name a)
  ++ cli_option "--network" (arg_network a)
  ++ match arg_entrypoint a with Some l => "--entrypoint" :: l | None => [] end
  ++ cli_option "-w" (arg_working_dir a)
  ++ cli_option "-u" (pretty <$> arg_user a)
  ++ cli_option "--hostname" (arg_hostname a).

Definition cli_label (kv : string * string) : list string :=
  ["--label"; fst kv +:+ "=" +:+ snd kv].

Definition cli_options (host : Host) (a : ApiArgs) : list string :=
  cli_switches a
  ++ flat_map (fun kv => ["-e"; fst kv +:+ "=" +:+ snd kv])
       (PyDict.items (arg_environment a))
  ++ flat_map cli_label (PyDict.items (arg_labels a))
  ++ flat_map (fun ch => ["-p"; pretty (snd ch) +:+ ":" +:+ pretty (fst ch)])
       (PyDict.items (arg_ports a))
  ++ flat_map (cli_mount host) (arg_mounts a).

(** [s] ends with [p]. *)
Definition ends_with (s p : string) : Prop := ∃ x, s = x +:+ p.

(** The tasks [start_project] hands to the pool for the queues [qs]:
    one per queue whose service the project declares, in order. *)
Definition scheduled_for
    (project : Project) (quick : bool) (command_group : string)
    (qs : PyDict.t nat string) : list StartTask :=
  omap (fun qn =>
          (fun service =>
             mkStartTask (proj_name project) service command_group (fst qn) quick)
          <$> PyDict.get (proj_services project) (snd qn))
       (PyDict.items qs).

(* ===================================================================== *)
(** * Vocabulary of the statements *)
(* ===================================================================== *)

(** A store in which no list object holds anything. *)
Definition empty_store : store := fun _ => [].

(** The user an image declares, when it declares a non-empty one. *)
Definition declared_user (image_config : ImageConfig) : option string :=
  match ic_User image_config with
  | Some u => if decide (u = "") then None else Some u
  | None => None
  end.

(** The last character of a string. *)
Fixpoint last_char (s : string) : option Ascii.ascii :=
  match s with
  | EmptyString => None
  | String c r => match last_char r with Some c' => Some c' | None => Some c end
  end.

(** The text of the mode of a mount on the command line. *)
Definition mode_text (m : Mount) : string := if ReadOnly m then "ro" else "rw".

(** The state a queue is left in by [start_project]. *)
Definition queue_after (project : Project) (service_name : string) : queue_state :=
  if PyDict.mem (proj_services project) service_name
  then QueueOpen
  else QueueEndedWithError "Service not found.".

(** The mount [set_mount] stores for a host path. *)
Definition bind_mount (host_path container_path mode : string) : Mount :=
  mkMount container_path host_path "bind" (bool_decide (mode = "ro")) "delegated".

(** The path of the wrapper script on the host. *)
Definition entrypoint_script (host : Host) : string :=
  os_path_join (riptide_engine_docker_assets_dir host) "entrypoint.sh".

(** The mount a declared volume becomes. *)
Definition volume_mount (hv : string * Volume) : string * Mount :=
  (fst hv, bind_mount (fst hv) (vol_bind (snd hv)) (mode_or_rw (vol_mode (snd hv)))).

(** The service takes the role [main]. *)
Definition has_main_role (service : Service) : bool :=
  match svc_roles service with
  | Some roles => bool_decide ("main" ∈ roles)
  | None => false
  end.

(** The maps of the builder have distinct keys, and every mount sits
    under its own host path, is a bind mount and asks for delegated
    consistency. *)
Definition well_formed (b : ContainerBuilder) : Prop :=
  NoDup (env b).*1 ∧ NoDup (labels b).*1 ∧ NoDup (ports b).*1 ∧
  NoDup (mounts b).*1 ∧
  Forall (fun km => Source (snd km) = fst km ∧ Type_ (snd km) = "bind"
                    ∧ Consistency (snd km) = "delegated") (mounts b).


(** A progress line the pull can show: not JSON at all, or a JSON object
    with the key [status]. *)
Definition line_ok (c : PullClient) (line : string) : Prop :=
  match json_loads c line with
  | Some status => is_Some (PyDict.get status "status")
  | None => True
  end.

(** The pull of an image goes through, or ends with an error of the
    registry whose text holds [404 Client Error]. *)
Definition pull_benign (c : PullClient) (image_name : string) : Prop :=
  Forall (line_ok c) (stream_lines (client_api_pull c image_name)) ∧
  match stream_error (client_api_pull c image_name) with
  | Some msg => contains "404 Client Error" msg = true
  | None => True
  end.

(** The images a project declares: those of its services, then those of
    its commands that have one, in the order of declaration. *)
Definition declared_images (app : PullApp) : list string :=
  match pa_services app with Some services => map snd services | None => [] end
  ++ match pa_commands app with Some commands => omap snd commands | None => [] end.

(** The log after further messages and pulls. *)
Definition log_after (log : PullLog) (msgs images : list string) : PullLog :=
  mkPullLog (messages log ++ msgs) (pulled log ++ images).

(** The loop over the lines of a stream. *)
Definition show_lines (c : PullClient) (line_reset : string) (lines : list string)
  : M PullLog unit :=
  for_loop lines
    (fun _ line =>
       update ← pull_line_update c line;
       update_func (line_reset +:+ "    " +:+ update))
    tt.

(* ===================================================================== *)
(** * Sample data *)
(* ===================================================================== *)

Example service_port_8080 : Service :=
  {| svc_name := "web"; svc_project_name := "shop"; svc_port := Some 8080;
     svc_dont_create_user := false; svc_run_as_current_user := true;
     svc_roles := Some ["main"]; svc_logging := None;
     svc_volumes := PyDict.empty; svc_environment := PyDict.empty;
     svc_ports := PyDict.empty |}.

Example service_no_user : Service :=
  {| svc_name := "db"; svc_project_name := "shop"; svc_port := None;
     svc_dont_create_user := false; svc_run_as_current_user := false;
     svc_roles := None; svc_logging := None;
     svc_volumes := PyDict.empty; svc_environment := PyDict.empty;
     svc_ports := PyDict.empty |}.

Example linux_host : Host :=
  {| riptide_engine_docker_assets_dir := "/opt/riptide/assets";
     getuid := 1000; getgid := 100; platform_system := "Linux" |}.

Example mac_host : Host :=
  {| riptide_engine_docker_assets_dir := "/opt/riptide/assets";
     getuid := 501; getgid := 20; platform_system := "MacOS" |}.

Example empty_world : World :=
  {| docker_containers := fun _ => inl "404 Client Error: Not Found";
     networks := ∅; next_queue := 0; queues := ∅; executor := [] |}.

Example project_shop : Project :=
  {| proj_name := "shop";
     proj_services := [("web", service_port_8080); ("db", service_no_user)] |}.

Example world_with_web : World :=
  {| docker_containers := fun name =>
       if decide (name = "riptide__shop__web")
       then inr (mkContainer "running" [("riptide", "1"); ("riptide_port", "30005")])
       else inl "404 Client Error: Not Found";
     networks := {["riptide__shop"]}; next_queue := 0; queues := ∅; executor := [] |}.

Example command_with_volumes : Command :=
  {| cmd_volumes := [("/home/me/src", mkVolume "/src" None);
                     ("/etc/ssl", mkVolume "/etc/ssl" (Some "ro"))];
     cmd_environment := [("LANG", "C")] |}.

Example service_with_ports : Service :=
  {| svc_name := "db"; svc_project_name := "shop"; svc_port := Some 3306;
     svc_dont_create_user := true; svc_run_as_current_user := false;
     svc_roles := None;
     svc_logging := Some (Some [("slow", "tail -f /var/log/slow.log")]);
     svc_volumes := PyDict.empty; svc_environment := PyDict.empty;
     svc_ports := [(9104, 9104)] |}.

(** A registry that knows [nginx:latest], answers 404 for [ghost:latest]
    and fails for anything else; progress lines are not JSON. *)
Example sample_client : PullClient :=
  {| client_api_pull := fun image =>
       if decide (image = "nginx:latest")
       then mkPullStream ["Pulling from library/nginx"] None
       else if decide (image = "ghost:latest")
            then mkPullStream [] (Some "404 Client Error: Not Found")
            else mkPullStream [] (Some "500 Server Error");
     json_loads := fun _ => None |}.

Example empty_log : PullLog := mkPullLog [] [].

(* ===================================================================== *)
(** * Facts about dictionaries *)
(* ===================================================================== *)

Section dict_facts.
Context {K V : Type} `{Countable K}.
Implicit Types (d : PyDict.t K V) (k : K) (v : V).

Lemma get_set_eq d k v : PyDict.get (PyDict.set d k v) k = Some v.
Proof.
  induction d as [|[k' v'] r IH]; simpl.
  - by rewrite decide_True.
  - destruct (decide (k' = k)) as [->|Hne]; simpl.
    + by rewrite decide_True.
    + by rewrite decide_False.
Qed.

Lemma get_set_ne d k k' v :
  k ≠ k' → PyDict.get (PyDict.set d k v) k' = PyDict.get d k'.
Proof.
  intros Hne. induction d as [|[k0 v0] r IH]; simpl.
  - by rewrite decide_False.
  - destruct (decide (k0 = k)) as [->|Hk]; simpl.
    + by rewrite !decide_False.
    + by rewrite IH.
Qed.

Lemma get_set d k k' v :
  PyDict.get (PyDict.set d k v) k' =
  if decide (k = k') then Some v else PyDict.get d k'.
Proof.
  case_decide as Hk; [subst; apply get_set_eq | by apply get_set_ne].
Qed.

(** The content of a dict is what [get] reads. *)
Lemma content_lookup d k : PyDict.content d !! k = PyDict.get d k.
Proof.
  unfold PyDict.content. induction d as [|[k' v'] r IH]; simpl.
  - apply lookup_empty.
  - rewrite lookup_insert. by case_decide.
Qed.

Lemma content_set d k v :
  PyDict.content (PyDict.set d k v) = <[k := v]> (PyDict.content d).
Proof.
  apply map_eq; intros k'.
  rewrite lookup_insert, !content_lookup, get_set. by repeat case_decide.
Qed.

Lemma content_ext d1 d2 :
  (∀ k, PyDict.get d1 k = PyDict.get d2 k) → PyDict.content d1 = PyDict.content d2.
Proof. intros E. apply map_eq; intros k. by rewrite !content_lookup. Qed.

(** A new key goes to the end of the dict. *)
Lemma set_fresh d k v : PyDict.get d k = None → PyDict.set d k v = d ++ [(k, v)].
Proof.
  induction d as [|[k' v'] r IH]; simpl; [done|].
  case_decide; [done|]. intros E. by rewrite IH.
Qed.

Lemma get_Some_elem_of d k v : PyDict.get d k = Some v → (k, v) ∈ PyDict.items d.
Proof.
  unfold PyDict.items. induction d as [|[k' v'] r IH]; simpl; [done|].
  case_decide; intros E.
  - simplify_eq. apply list_elem_of_here.
  - apply list_elem_of_further. auto.
Qed.

Lemma get_not_key d k : k ∉ d.*1 → PyDict.get d k = None.
Proof.
  induction d as [|[k' v'] r IH]; simpl; [done|].
  intros Hk. apply not_elem_of_cons in Hk as [? ?]. case_decide; [done|]. auto.
Qed.

Lemma elem_of_set_keys d k v x : x ∈ (PyDict.set d k v).*1 ↔ x = k ∨ x ∈ d.*1.
Proof.
  induction d as [|[k' v'] r IH]; simpl.
  - rewrite elem_of_cons, elem_of_nil. tauto.
  - case_decide; simpl; [subst; rewrite !elem_of_cons; tauto|].
    rewrite !elem_of_cons, IH. tauto.
Qed.

(** Assignments keep the keys of a dict distinct. *)
Lemma set_NoDup d k v : NoDup d.*1 → NoDup (PyDict.set d k v).*1.
Proof.
  induction d as [|[k' v'] r IH]; simpl.
  - intros _. apply NoDup_singleton.
  - rewrite NoDup_cons. intros [Hk Hr]. case_decide; simpl.
    + apply NoDup_cons. done.
    + apply NoDup_cons. split; [|auto].
      rewrite elem_of_set_keys. intros [->|?]; done.
Qed.

Lemma update_cons d k v e :
  PyDict.update d ((k, v) :: e) = PyDict.update (PyDict.set d k v) e.
Proof. done. Qed.

Lemma update_NoDup d e : NoDup d.*1 → NoDup (PyDict.update d e).*1.
Proof.
  revert d. induction e as [|[k v] e IH]; intros d Hd; [done|].
  rewrite update_cons. apply IH. by apply set_NoDup.
Qed.

(** [d.update(e)]: the entries of [e] win, the other keys keep their value. *)
Lemma get_update d e k :
  NoDup e.*1 →
  PyDict.get (PyDict.update d e) k = last_or (PyDict.get e k) (PyDict.get d k).
Proof.
  revert d. induction e as [|[k' v'] e IH]; intros d He; [done|].
  rewrite update_cons. simpl in He. apply NoDup_cons in He as [Hk He].
  rewrite IH by done. simpl. case_decide as E.
  - subst. rewrite get_not_key by done. simpl. apply get_set_eq.
  - by rewrite get_set_ne.
Qed.

End dict_facts.

(* ===================================================================== *)
(** * Facts about sequences of mutator calls *)
(* ===================================================================== *)

(** A view of one map of the builder, with what each call writes to it. *)
Section channel.
Context {K V : Type} `{Countable K}.
Variable proj : ContainerBuilder → PyDict.t K V.
Variable write : Call → option (K * V).
Hypothesis apply_call_proj : ∀ b c,
  proj (apply_call b c) =
  match write c with
  | Some (k, v) => PyDict.set (proj b) k v
  | None => proj b
  end.

Lemma channel_apply_calls_app b cs c :
  apply_calls b (cs ++ [c]) = apply_call (apply_calls b cs) c.
Proof. unfold apply_calls. by rewrite fold_left_app. Qed.

Lemma channel_last_write_snoc cs c k :
  last_write write (cs ++ [c]) k =
  match write c with
  | Some (k', v) => if decide (k' = k) then Some v else last_write write cs k
  | None => last_write write cs k
  end.
Proof.
  induction cs as [|c0 r IH]; simpl.
  - destruct (write c) as [[k' v]|]; [by case_decide | done].
  - rewrite IH. destruct (write c) as [[k' v]|]; [|done].
    case_decide; [done|]. done.
Qed.

(** Last call per key wins; a key no call writes keeps its value. *)
Lemma channel_last_wins b cs k :
  PyDict.get (proj (apply_calls b cs)) k =
  match last_write write cs k with
  | Some v => Some v
  | None => PyDict.get (proj b) k
  end.
Proof.
  induction cs as [|c r IH] using rev_ind; [done|].
  rewrite channel_apply_calls_app, apply_call_proj, channel_last_write_snoc.
  destruct (write c) as [[k' v]|]; [|done].
  rewrite get_set. by case_decide.
Qed.

(** A call that does not write key [k] leaves the value at [k] alone. *)
Lemma channel_independent b c k :
  (∀ v, write c ≠ Some (k, v)) →
  PyDict.get (proj (apply_call b c)) k = PyDict.get (proj b) k.
Proof.
  intros Hc. rewrite apply_call_proj.
  destruct (write c) as [[k' v]|]; [|done].
  rewrite get_set. case_decide; [|done]. subst. by destruct (Hc v).
Qed.

(** Sequences that agree on the last write per key give the same content. *)
Lemma channel_order_irrelevant b cs1 cs2 :
  (∀ k, last_write write cs1 k = last_write write cs2 k) →
  PyDict.content (proj (apply_calls b cs1)) = PyDict.content (proj (apply_calls b cs2)).
Proof.
  intros E. apply content_ext; intros k. by rewrite !channel_last_wins, E.
Qed.

End channel.

Lemma apply_call_env b c :
  env (apply_call b c) =
  match env_write c with Some (k, v) => PyDict.set (env b) k v | None => env b end.
Proof. by destruct c. Qed.

Lemma apply_call_labels b c :
  labels (apply_call b c) =
  match label_write c with Some (k, v) => PyDict.set (labels b) k v | None => labels b end.
Proof. by destruct c. Qed.

Lemma apply_call_mounts b c :
  mounts (apply_call b c) =
  match mount_write c with Some (k, v) => PyDict.set (mounts b) k v | None => mounts b end.
Proof. by destruct c. Qed.

Lemma apply_call_ports b c :
  ports (apply_call b c) =
  match port_write c with Some (k, v) => PyDict.set (ports b) k v | None => ports b end.
Proof. by destruct c. Qed.

(** C8. For every builder and every sequence of [set_env] / [set_label] /
    [set_mount] / [set_port] calls: (1) in each of the four maps a key
    holds the value of the last call on that key, and the value it had
    before when no call wrote it; (2) a call leaves every key it does not
    write, in every map, as it was; (3) two sequences that agree on the
    last value written per key give the four maps the same content,
    whatever the order of the calls. *)
Theorem C8_last_call_per_key_wins (b : ContainerBuilder) (cs : list Call) :
  ((∀ k, PyDict.get (env (apply_calls b cs)) k
         = last_or (last_write env_write cs k) (PyDict.get (env b) k)) ∧
   (∀ k, PyDict.get (labels (apply_calls b cs)) k
         = last_or (last_write label_write cs k) (PyDict.get (labels b) k)) ∧
   (∀ k, PyDict.get (mounts (apply_calls b cs)) k
         = last_or (last_write mount_write cs k) (PyDict.get (mounts b) k)) ∧
   (∀ k, PyDict.get (ports (apply_calls b cs)) k
         = last_or (last_write port_write cs k) (PyDict.get (ports b) k)))
  ∧
  (∀ c,
     (∀ k, (∀ v, env_write c ≠ Some (k, v)) →
           PyDict.get (env (apply_call b c)) k = PyDict.get (env b) k) ∧
     (∀ k, (∀ v, label_write c ≠ Some (k, v)) →
           PyDict.get (labels (apply_call b c)) k = PyDict.get (labels b) k) ∧
     (∀ k, (∀ v, mount_write c ≠ Some (k, v)) →
           PyDict.get (mounts (apply_call b c)) k = PyDict.get (mounts b) k) ∧
     (∀ k, (∀ v, port_write c ≠ Some (k, v)) →
           PyDict.get (ports (apply_call b c)) k = PyDict.get (ports b) k))
  ∧
  (∀ cs',
     (∀ k, last_write env_write cs k = last_write env_write cs' k) →
     (∀ k, last_write label_write cs k = last_write label_write cs' k) →
     (∀ k, last_write mount_write cs k = last_write mount_write cs' k) →
     (∀ k, last_write port_write cs k = last_write port_write cs' k) →
     PyDict.content (env (apply_calls b cs)) = PyDict.content (env (apply_calls b cs')) ∧
     PyDict.content (labels (apply_calls b cs)) = PyDict.content (labels (apply_calls b cs')) ∧
     PyDict.content (mounts (apply_calls b cs)) = PyDict.content (mounts (apply_calls b cs')) ∧
     PyDict.content (ports (apply_calls b cs)) = PyDict.content (ports (apply_calls b cs'))).
Proof.
  split; [|split].
  - repeat split; intros k; unfold last_or.
    + apply (channel_last_wins env env_write apply_call_env).
    + apply (channel_last_wins labels label_write apply_call_labels).
    + apply (channel_last_wins mounts mount_write apply_call_mounts).
    + apply (channel_last_wins ports port_write apply_call_ports).
  - intros c. repeat split; intros k Hk.
    + by apply (channel_independent env env_write apply_call_env).
    + by apply (channel_independent labels label_write apply_call_labels).
    + by apply (channel_independent mounts mount_write apply_call_mounts).
    + by apply (channel_independent ports port_write apply_call_ports).
  - intros cs' He Hl Hm Hp. repeat split.
    + by apply (channel_order_irrelevant env env_write apply_call_env).
    + by apply (channel_order_irrelevant labels label_write apply_call_labels).
    + by apply (channel_order_irrelevant mounts mount_write apply_call_mounts).
    + by apply (channel_order_irrelevant ports port_write apply_call_ports).
Qed.

(** Two orders of the same writes: the content agrees although the
    insertion order, which the command line follows, differs. *)
Lemma C8_last_call_per_key_wins_witness :
  let b := ContainerBuilder_init "alpine" (CmdStr "true") in
  let cs := [SetEnv "A" "0"; SetEnv "B" "2"; SetEnv "A" "1"] in
  let cs' := [SetEnv "B" "2"; SetEnv "A" "1"] in
  PyDict.get (env (apply_calls b cs)) "A" = Some "1" ∧
  PyDict.content (env (apply_calls b cs)) = PyDict.content (env (apply_calls b cs')) ∧
  env (apply_calls b cs) ≠ env (apply_calls b cs').
Proof.
  intros b cs cs'.
  pose proof (C8_last_call_per_key_wins b cs) as [[He _] [_ Hord]].
  split; [exact (He "A")|]. split; [|by vm_compute].
  apply (Hord cs'); intros k; simpl; [|done..].
  repeat case_decide; congruence.
Defined.

(* ===================================================================== *)
(** * The entrypoint protocol *)
(* ===================================================================== *)

(** [parse_entrypoint] never raises: the [pop] is guarded. *)
Lemma parse_entrypoint_returns entrypoint h :
  ∃ d h', parse_entrypoint entrypoint h = (inr d, h').
Proof.
  destruct entrypoint as [|r|s]; simpl.
  - by eexists _, _.
  - unfold parse_entrypoint, mbind, M_bind, list_read, list_pop0; simpl.
    destruct (h r) as [|x rest] eqn:E; simpl; [by eexists _, _|].
    rewrite E. by eexists _, _.
  - unfold parse_entrypoint. destruct (PyStr.truthy s); by eexists _, _.
Qed.

Lemma parse_entrypoint_exec r h exe arguments :
  h r = exe :: arguments →
  parse_entrypoint (EpList r) h =
  (inr [(EENV_ORIGINAL_ENTRYPOINT,
         exe +:+ " " +:+ PyStr.join " " (map PyStr.quoted arguments))],
   store_set h r arguments).
Proof.
  intros E. unfold parse_entrypoint, mbind, M_bind, list_read, list_pop0; simpl.
  rewrite E; simpl. rewrite E; simpl.
  unfold store_set at 1. by rewrite decide_True.
Qed.

Example parse_entrypoint_absent :
  fst (parse_entrypoint EpNone empty_store) = inr [(EENV_ORIGINAL_ENTRYPOINT, "")].
Proof. reflexivity. Qed.

Example parse_entrypoint_bin_foo :
  fst (parse_entrypoint (EpList 0%nat) (store_set empty_store 0%nat ["/bin/foo"; "a"; "b"]))
  = inr [(EENV_ORIGINAL_ENTRYPOINT,
          "/bin/foo " +:+ PyStr.quoted "a" +:+ " " +:+ PyStr.quoted "b")].
Proof. reflexivity. Qed.

Example parse_entrypoint_echo_hi :
  fst (parse_entrypoint (EpStr "echo hi") empty_store)
  = inr [(EENV_ORIGINAL_ENTRYPOINT, "/bin/sh -c echo hi"); (EENV_DONT_RUN_CMD, "true")].
Proof. reflexivity. Qed.

(** C2, as the specification states it, fails for the empty string: it
    is a single-string entrypoint, and the result is that of an absent
    entrypoint, with no shell prefix and no don't-run flag. *)
Lemma C2_empty_string_counterexample :
  ¬ (∀ s h,
       fst (parse_entrypoint (EpStr s) h)
       = inr [(EENV_ORIGINAL_ENTRYPOINT, "/bin/sh -c " +:+ s);
              (EENV_DONT_RUN_CMD, "true")]).
Proof. intros H. specialize (H "" empty_store). discriminate H. Qed.

(** C2, amended. An absent entrypoint yields exactly the original
    entrypoint [""]; a list object holding [exe; a1; ...; an] yields the
    executable, one space, and the arguments each in double quotes and
    joined by single spaces; a non-empty string [s] yields
    ["/bin/sh -c " + s] and the don't-run flag ["true"]; the empty string
    yields what an absent entrypoint yields. No other key is set. *)
Theorem C2_parse_entrypoint_contract :
  (∀ h, fst (parse_entrypoint EpNone h) = inr [(EENV_ORIGINAL_ENTRYPOINT, "")])
  ∧
  (∀ r h exe arguments,
     h r = exe :: arguments →
     fst (parse_entrypoint (EpList r) h)
     = inr [(EENV_ORIGINAL_ENTRYPOINT,
             exe +:+ " " +:+ PyStr.join " " (map PyStr.quoted arguments))])
  ∧
  (∀ s h,
     s ≠ "" →
     fst (parse_entrypoint (EpStr s) h)
     = inr [(EENV_ORIGINAL_ENTRYPOINT, "/bin/sh -c " +:+ s);
            (EENV_DONT_RUN_CMD, "true")])
  ∧
  (∀ h, fst (parse_entrypoint (EpStr "") h) = inr [(EENV_ORIGINAL_ENTRYPOINT, "")]).
Proof.
  repeat split.
  - intros r h exe arguments E. by rewrite (parse_entrypoint_exec r h exe arguments E).
  - intros s h Hs. unfold parse_entrypoint. by destruct s.
Qed.

Lemma C2_parse_entrypoint_contract_witness :
  fst (parse_entrypoint (EpList 7%nat) (store_set empty_store 7%nat ["/bin/foo"; "a"; "b"]))
  = inr [(EENV_ORIGINAL_ENTRYPOINT,
          "/bin/foo " +:+ PyStr.quoted "a" +:+ " " +:+ PyStr.quoted "b")]
  ∧
  fst (parse_entrypoint (EpStr "echo hi") empty_store)
  = inr [(EENV_ORIGINAL_ENTRYPOINT, "/bin/sh -c echo hi"); (EENV_DONT_RUN_CMD, "true")].
Proof.
  destruct C2_parse_entrypoint_contract as (_ & Hexec & Hshell & _). split.
  - apply (Hexec 7%nat (store_set empty_store 7%nat ["/bin/foo"; "a"; "b"])
             "/bin/foo" ["a"; "b"]).
    reflexivity.
  - apply (Hshell "echo hi" empty_store). discriminate.
Defined.

(** C9. For every list object that is not empty, [parse_entrypoint]
    removes its first element in place: afterwards the object holds the
    former arguments, and every other list object is as before. A string
    and an absent entrypoint leave the store as it was. *)
Theorem C9_parse_entrypoint_pops_the_list :
  (∀ r h,
     h r ≠ [] →
     ∃ d h',
       parse_entrypoint (EpList r) h = (inr d, h') ∧
       h' r = tail (h r) ∧
       (∀ r', r' ≠ r → h' r' = h r'))
  ∧ (∀ s h, snd (parse_entrypoint (EpStr s) h) = h)
  ∧ (∀ h, snd (parse_entrypoint EpNone h) = h).
Proof.
  repeat split.
  - intros r h Hne. destruct (h r) as [|exe arguments] eqn:E; [done|].
    rewrite (parse_entrypoint_exec r h exe arguments E).
    eexists _, _. split; [done|]. split.
    + unfold store_set. by rewrite decide_True.
    + intros r' Hr. unfold store_set. by rewrite decide_False.
  - intros s h. unfold parse_entrypoint. by destruct (PyStr.truthy s).
Qed.

(** The caller's list loses its executable: parsing the same image
    configuration twice reads two different entrypoints. *)
Lemma C9_parse_entrypoint_pops_the_list_witness :
  let h := store_set empty_store 3%nat ["/bin/foo"; "a"; "b"] in
  ∃ d h',
    parse_entrypoint (EpList 3%nat) h = (inr d, h') ∧
    h' 3%nat = ["a"; "b"] ∧
    fst (parse_entrypoint (EpList 3%nat) h')
    = inr [(EENV_ORIGINAL_ENTRYPOINT, "a " +:+ PyStr.quoted "b")].
Proof.
  intros h.
  destruct C9_parse_entrypoint_pops_the_list as (Hpop & _ & _).
  destruct (Hpop 3%nat h) as (d & h' & E & Hr & _); [discriminate|].
  exists d, h'. split; [exact E|]. split; [exact Hr|].
  vm_compute in E. injection E as _ <-. reflexivity.
Defined.

(* ===================================================================== *)
(** * The main port *)
(* ===================================================================== *)

Example add_main_port_8080 :
  let b := service_add_main_port (fun _ => 30005) service_port_8080
             (ContainerBuilder_init "nginx" (CmdStr "nginx")) in
  labels b = [("riptide", "1"); ("riptide_port", "30005")] ∧
  ports b = [(8080, 30005)].
Proof. by vm_compute. Qed.

(** C4. [service_add_main_port] leaves the builder as it is when the
    service declares no port. When the service declares port [p] and the
    allocator, probed from the base 30000, answers [h], the builder gains
    the label [riptide_port] with the decimal text of [h] and the port
    entry [p] to [h]; every other label, every other port entry and
    every other attribute is unchanged. *)
Theorem C4_service_add_main_port
    (find_open_port_starting_at : Z → Z) (service : Service)
    (b : ContainerBuilder) :
  let b' := service_add_main_port find_open_port_starting_at service b in
  let h := find_open_port_starting_at DOCKER_ENGINE_HTTP_PORT_BND_START in
  match svc_port service with
  | None => b' = b
  | Some p =>
      PyDict.get (labels b') RIPTIDE_DOCKER_LABEL_HTTP_PORT = Some (pretty h) ∧
      PyDict.get (ports b') p = Some h ∧
      (∀ k, k ≠ RIPTIDE_DOCKER_LABEL_HTTP_PORT →
            PyDict.get (labels b') k = PyDict.get (labels b) k) ∧
      (∀ c, c ≠ p → PyDict.get (ports b') c = PyDict.get (ports b) c) ∧
      env b' = env b ∧ mounts b' = mounts b ∧ network b' = network b ∧
      name b' = name b ∧ entrypoint b' = entrypoint b ∧
      command b' = command b ∧ args b' = args b ∧ work_dir b' = work_dir b ∧
      image b' = image b ∧ run_as_root b' = run_as_root b ∧
      hostname b' = hostname b
  end.
Proof.
  unfold service_add_main_port. destruct (svc_port service) as [p|]; simpl; [|done].
  split; [apply get_set_eq|]. split; [apply get_set_eq|].
  split; [intros k Hk; by apply get_set_ne|].
  split; [intros c Hc; by apply get_set_ne|]. done.
Qed.


(* ===================================================================== *)
(** * Facts about the initialisers *)
(* ===================================================================== *)

Lemma fold_left_frame {A B C} (f : A → B → A) (P : A → C) (l : list B) (a : A) :
  (∀ a x, P (f a x) = P a) → P (fold_left f l a) = P a.
Proof.
  intros Hf. revert a. induction l as [|x l IH]; intros a; simpl; [done|].
  by rewrite IH.
Qed.

Lemma set_env_all_env b d : env (set_env_all b d) = PyDict.update (env b) d.
Proof.
  unfold set_env_all, PyDict.update, PyDict.items. revert b.
  induction d as [|[k v] d IH]; intros b; simpl; [done|]. by rewrite IH.
Qed.

Lemma set_label_all_labels b d :
  labels (set_label_all b d) = PyDict.update (labels b) d.
Proof.
  unfold set_label_all, PyDict.update, PyDict.items. revert b.
  induction d as [|[k v] d IH]; intros b; simpl; [done|]. by rewrite IH.
Qed.

Lemma set_env_all_labels b d : labels (set_env_all b d) = labels b.
Proof. by apply (fold_left_frame _ labels). Qed.

Lemma set_mount_all_labels b d : labels (set_mount_all b d) = labels b.
Proof. by apply (fold_left_frame _ labels). Qed.

Lemma set_port_all_labels b d : labels (set_port_all b d) = labels b.
Proof. by apply (fold_left_frame _ labels). Qed.

Lemma set_label_all_env b d : env (set_label_all b d) = env b.
Proof. by apply (fold_left_frame _ env). Qed.

Lemma set_port_all_env b d : env (set_port_all b d) = env b.
Proof. by apply (fold_left_frame _ env). Qed.

(** The entrypoint override returns, and leaves the labels alone. *)
Lemma enable_riptide_entrypoint_returns host image_config b h :
  ∃ self h',
    enable_riptide_entrypoint host image_config b h = (inr self, h') ∧
    labels self = labels b.
Proof.
  destruct (parse_entrypoint_returns (ic_Entrypoint image_config) h) as (d & h' & E).
  unfold enable_riptide_entrypoint, mbind, M_bind. rewrite E.
  eexists _, _. split; [done|]. simpl. by rewrite set_env_all_labels.
Qed.

Lemma init_common_returns {D} `{Document D} host (doc : D) image_config b h :
  ∃ self h',
    _init_common host doc image_config b h = (inr self, h') ∧
    labels self = labels b.
Proof.
  destruct (enable_riptide_entrypoint_returns host image_config b h)
    as (self & h' & E & Hl).
  unfold _init_common, mbind, M_bind. rewrite E.
  eexists _, _. split; [done|].
  by rewrite set_env_all_labels, set_mount_all_labels.
Qed.

(** [init_from_service] returns; what it adds last to the environment and
    to the labels is spelled out. *)
Lemma init_from_service_returns host service image_config b h :
  ∃ self b' h',
    init_from_service host service image_config b h = (inr b', h') ∧
    labels self = labels b ∧
    env b' =
      PyDict.update (env self)
        (PyDict.update (service_collect_logging_commands service)
           (service_collect_entrypoint_user_settings
              service (getuid host) (getgid host) image_config)) ∧
    labels b' =
      PyDict.update (labels self)
        (service_collect_labels service (svc_project_name service)).
Proof.
  destruct (init_common_returns host service image_config b h)
    as (self & h' & E & Hl).
  exists self. unfold init_from_service, mbind, M_bind. rewrite E.
  eexists _, _. split; [done|]. split; [done|]. split.
  - by rewrite set_port_all_env, set_label_all_env, set_env_all_env.
  - by rewrite set_port_all_labels, set_label_all_labels, set_env_all_labels.
Qed.

Lemma user_settings_NoDup service user user_group image_config :
  NoDup (service_collect_entrypoint_user_settings
           service user user_group image_config).*1.
Proof.
  unfold service_collect_entrypoint_user_settings.
  destruct (svc_dont_create_user service), (svc_run_as_current_user service),
    (ic_User image_config) as [u|]; simpl;
    try (destruct (bool_decide (u ≠ "")));
    simpl; compute_done.
Qed.

Lemma logging_commands_NoDup service :
  NoDup (service_collect_logging_commands service).*1.
Proof.
  unfold service_collect_logging_commands.
  destruct (svc_logging service) as [[commands|]|]; try apply NoDup_nil_2.
  unfold PyDict.items.
  assert (∀ (l : list (string * string)) (acc : PyDict.t string string),
            NoDup acc.*1 →
            NoDup (fold_left
                     (fun environment kv =>
                        PyDict.set environment (EENV_COMMAND_LOG_PREFIX +:+ fst kv) (snd kv))
                     l acc).*1) as Hfold.
  { induction l as [|kv l IH]; intros acc Hacc; simpl; [done|].
    apply IH. by apply set_NoDup. }
  apply Hfold, NoDup_nil_2.
Qed.

Lemma service_labels_NoDup service project_name :
  NoDup (service_collect_labels service project_name).*1.
Proof.
  assert (NoDup [RIPTIDE_DOCKER_LABEL_IS_RIPTIDE; RIPTIDE_DOCKER_LABEL_PROJECT;
                 RIPTIDE_DOCKER_LABEL_SERVICE; RIPTIDE_DOCKER_LABEL_MAIN]) as Hk
    by compute_done.
  unfold service_collect_labels.
  destruct (svc_roles service) as [roles|]; [|exact Hk].
  case_bool_decide; [|exact Hk]. by apply set_NoDup.
Qed.

Lemma service_labels_marker service project_name :
  PyDict.get (service_collect_labels service project_name)
    RIPTIDE_DOCKER_LABEL_IS_RIPTIDE = Some "1".
Proof.
  unfold service_collect_labels.
  destruct (svc_roles service) as [roles|]; [|done].
  case_bool_decide; [|done]. by rewrite get_set_ne.
Qed.
(* ===================================================================== *)
(** * The privilege rule *)
(* ===================================================================== *)

(** C6. The user settings of the entrypoint are exactly these: the user
    and group variables hold the decimal text of the given uid and gid
    unless the service disables user creation; the run-main-as-user
    variable is ["yes"] when the service runs as the current user, or
    else when the image declares a non-empty user; the user-to-run-as
    variable is that declared user, in the second case only; no other
    variable is set. [init_from_service] computes them for the uid and
    gid of the invoking host user and puts each of them into the
    environment of the builder. *)
Theorem C6_entrypoint_user_settings
    (service : Service) (user user_group : Z) (image_config : ImageConfig) :
  let d := service_collect_entrypoint_user_settings
             service user user_group image_config in
  PyDict.get d EENV_USER
    = (if svc_dont_create_user service then None else Some (pretty user)) ∧
  PyDict.get d EENV_GROUP
    = (if svc_dont_create_user service then None else Some (pretty user_group)) ∧
  PyDict.get d EENV_RUN_MAIN_CMD_AS_USER
    = (if svc_run_as_current_user service then Some "yes"
       else (fun _ => "yes") <$> declared_user image_config) ∧
  PyDict.get d EENV_USER_RUN
    = (if svc_run_as_current_user service then None
       else declared_user image_config) ∧
  (∀ k, k ∉ [EENV_USER; EENV_GROUP; EENV_RUN_MAIN_CMD_AS_USER; EENV_USER_RUN] →
        PyDict.get d k = None) ∧
  (∀ host b h,
      ∃ b' h',
        init_from_service host service image_config b h = (inr b', h') ∧
        ∀ k v,
          PyDict.get
            (service_collect_entrypoint_user_settings
               service (getuid host) (getgid host) image_config) k = Some v →
          PyDict.get (env b') k = Some v).
Proof.
  intros d. subst d. repeat split.
  1-4: unfold service_collect_entrypoint_user_settings, declared_user;
       destruct (svc_dont_create_user service), (svc_run_as_current_user service),
         (ic_User image_config) as [u|]; simpl;
       try (destruct (decide (u = "")); [rewrite bool_decide_false by auto
                                         | rewrite bool_decide_true by auto]);
       repeat case_decide; by simplify_eq.
  - intros k Hk.
    assert (k ≠ EENV_USER ∧ k ≠ EENV_GROUP ∧ k ≠ EENV_RUN_MAIN_CMD_AS_USER
            ∧ k ≠ EENV_USER_RUN) as (H1 & H2 & H3 & H4).
    { repeat split; intros ->; apply Hk; set_solver. }
    unfold service_collect_entrypoint_user_settings.
    destruct (svc_dont_create_user service), (svc_run_as_current_user service),
      (ic_User image_config) as [u|]; simpl;
      try (destruct (bool_decide (u ≠ "")));
      simpl; repeat case_decide; by simplify_eq.
  - intros host b h.
    destruct (init_from_service_returns host service image_config b h)
      as (self & b' & h' & E & _ & Henv & _).
    exists b', h'. split; [exact E|]. intros k v Hk.
    rewrite Henv, get_update
      by apply update_NoDup, logging_commands_NoDup.
    rewrite get_update by apply user_settings_NoDup.
    by rewrite Hk.
Qed.

Example user_settings_current_user :
  service_collect_entrypoint_user_settings
    service_port_8080 1000 100 (mkImageConfig EpNone (Some "www-data"))
  = [(EENV_USER, "1000"); (EENV_GROUP, "100"); (EENV_RUN_MAIN_CMD_AS_USER, "yes")].
Proof. by vm_compute. Qed.

Example user_settings_image_user :
  service_collect_entrypoint_user_settings
    service_no_user 1000 100 (mkImageConfig EpNone (Some "www-data"))
  = [(EENV_USER, "1000"); (EENV_GROUP, "100"); (EENV_RUN_MAIN_CMD_AS_USER, "yes");
     (EENV_USER_RUN, "www-data")].
Proof. by vm_compute. Qed.

Example user_settings_root :
  service_collect_entrypoint_user_settings
    service_no_user 1000 100 (mkImageConfig EpNone (Some ""))
  = [(EENV_USER, "1000"); (EENV_GROUP, "100")].
Proof. by vm_compute. Qed.

(* ===================================================================== *)
(** * The two emitters *)
(* ===================================================================== *)

(** A loop that only appends to the token list emits the tokens of its
    items, in order. *)
Lemma fold_left_flat_map {A} (f : list string → A → list string)
    (g : A → list string) (l : list A) (shell : list string) :
  (∀ sh x, f sh x = sh ++ g x) →
  fold_left f l shell = shell ++ flat_map g l.
Proof.
  intros Hf. revert shell. induction l as [|x l IH]; intros shell; simpl.
  - by rewrite app_nil_r.
  - by rewrite IH, Hf, <- app_assoc.
Qed.

Lemma add_if_set_option shell flag o :
  add_if_set shell flag o = shell ++ cli_option flag (if_set o).
Proof.
  unfold add_if_set, if_set. destruct o as [[|c s]|]; simpl; by rewrite ?app_nil_r.
Qed.

Lemma append_empty_r (s : string) : s +:+ "" = s.
Proof.
  induction s as [|c s IH]; [done|].
  change (String c (s +:+ "") = String c s). by rewrite IH.
Qed.

Lemma append_assoc (x y z : string) : (x +:+ y) +:+ z = x +:+ y +:+ z.
Proof.
  induction x as [|c x IH]; [done|].
  change (String c ((x +:+ y) +:+ z) = String c (x +:+ y +:+ z)). by rewrite IH.
Qed.

Lemma add_user_option (shell : list string) (r : bool) :
  (if r then shell ++ ["-u"; pretty 0] else shell)
  = shell ++ cli_option "-u" (pretty <$> (if r then Some 0 else None)).
Proof. destruct r; simpl; by rewrite ?app_nil_r. Qed.

Lemma entrypoint_option (e : option string) :
  match (if PyStr.truthy_opt e then Some [default "" e] else None) with
  | Some l => "--entrypoint" :: l
  | None => []
  end = cli_option "--entrypoint" (if_set e).
Proof. unfold if_set. by destruct e as [[|c s]|]. Qed.

(** The tokens of the command-line emitter: the rendering of the bundle
    of the other emitter, then the image, then the command string the
    command-line emitter builds. *)
Lemma build_docker_cli_structure host detach remove b :
  build_docker_cli host b =
  cli_options host (build_docker_api detach remove b)
  ++ [image b; str_command (command b) +:+ " " +:+ quoted_args (args b)].
Proof.
  unfold build_docker_cli, cli_options, cli_switches, build_docker_api.
  cbn [arg_name arg_network arg_entrypoint arg_working_dir arg_user
       arg_hostname arg_environment arg_labels arg_ports arg_mounts].
  rewrite (fold_left_flat_map _ (cli_mount host)) by done.
  rewrite (fold_left_flat_map _
             (fun ch => ["-p"; pretty (snd ch) +:+ ":" +:+ pretty (fst ch)])) by done.
  rewrite (fold_left_flat_map _ cli_label) by done.
  rewrite (fold_left_flat_map _
             (fun kv => ["-e"; fst kv +:+ "=" +:+ snd kv])) by done.
  rewrite !add_if_set_option, add_user_option, entrypoint_option.
  by rewrite <- !app_assoc.
Qed.

Example cli_without_extra_args :
  build_docker_cli linux_host (ContainerBuilder_init "alpine" (CmdStr "echo hi"))
  = ["docker"; "run"; "--rm"; "-it"; "--label"; "riptide=1"; "alpine"; "echo hi "].
Proof. by vm_compute. Qed.

Example api_without_extra_args :
  arg_command
    (build_docker_api false true (ContainerBuilder_init "alpine" (CmdStr "echo hi")))
  = CmdStr "echo hi".
Proof. reflexivity. Qed.

Lemma append_space_ne (s : string) : s ≠ s +:+ " ".
Proof.
  induction s as [|c s IH]; [discriminate|].
  change (String c s +:+ " ") with (String c (s +:+ " ")).
  intros E. by injection E.
Qed.

Lemma build_docker_cli_last (host : Host) (b : ContainerBuilder) :
  last (build_docker_cli host b)
  = Some (str_command (command b) +:+ " " +:+ quoted_args (args b)).
Proof.
  rewrite (build_docker_cli_structure host false true b).
  change [image b; str_command (command b) +:+ " " +:+ quoted_args (args b)]
    with ([image b] ++ [str_command (command b) +:+ " " +:+ quoted_args (args b)]).
  by rewrite app_assoc, last_snoc.
Qed.

(** C1. The two emitters do not give the same final command string for
    every builder.  With no extra arguments [build_docker_api] passes the
    command as given, while the last token of [build_docker_cli] is the
    command, joined by spaces when it is a list, followed by one space:
    [build_docker_cli] has no test on the length of the extra arguments,
    which [build_docker_api] has.  With extra arguments the two final
    strings are the same: the command, a space, and the extra arguments
    each in double quotes. *)
Theorem C1_final_command_strings
    (host : Host) (detach remove : bool) (b : ContainerBuilder) :
  let a := build_docker_api detach remove b in
  let final := last (build_docker_cli host b) in
  (args b = [] →
   arg_command a = command b
   ∧ final = Some (str_command (command b) +:+ " ")
   ∧ final ≠ Some (str_command (arg_command a)))
  ∧ (args b ≠ [] →
     arg_command a
     = CmdStr (str_command (command b) +:+ " " +:+ quoted_args (args b))
     ∧ final = Some (str_command (arg_command a))).
Proof.
  intros a final. subst final. rewrite build_docker_cli_last.
  assert (arg_command a
          = match args b with
            | [] => command b
            | _ => CmdStr (str_command (command b) +:+ " " +:+ quoted_args (args b))
            end) as Ha.
  { subst a. unfold build_docker_api. cbn [arg_command]. by destruct (args b). }
  rewrite Ha. split.
  - intros E. rewrite E. split; [done|].
    change (quoted_args []) with "". rewrite append_empty_r.
    split; [done|]. intros H. injection H as H.
    by apply (append_space_ne (str_command (command b))).
  - intros Hne. by destruct (args b).
Qed.

(** The command [echo hi] with no extra arguments. *)
Lemma C1_final_command_strings_witness :
  let b := ContainerBuilder_init "alpine" (CmdStr "echo hi") in
  arg_command (build_docker_api false true b) = CmdStr "echo hi"
  ∧ last (build_docker_cli linux_host b) = Some "echo hi "
  ∧ last (build_docker_cli linux_host b) ≠ Some "echo hi".
Proof.
  intros b.
  destruct (C1_final_command_strings linux_host false true b) as [Hnone _].
  exact (Hnone eq_refl).
Defined.

(* ===================================================================== *)
(** * The mount tokens of the command line *)
(* ===================================================================== *)

Example is_mac_MacOS : is_mac mac_host = true.
Proof. reflexivity. Qed.

Example is_mac_Linux : is_mac linux_host = false.
Proof. reflexivity. Qed.

Example is_mac_Darwin : is_mac (mkHost "/opt" 501 20 "Darwin") = false.
Proof. reflexivity. Qed.

Example cli_mount_on_mac :
  build_docker_cli mac_host
    (set_mount (ContainerBuilder_init "alpine" (CmdStr "sh")) "/src" "/dst" "rw")
  = ["docker"; "run"; "--rm"; "-it"; "--label"; "riptide=1";
     "-v"; "/src:/dst:rw:delegated"; "alpine"; "sh "].
Proof. by vm_compute. Qed.

(** The mount tokens are the last options of the rendering. *)
Lemma cli_options_mounts host a :
  ∃ pre, cli_options host a = pre ++ flat_map (cli_mount host) (arg_mounts a).
Proof. unfold cli_options. rewrite !app_assoc. by eexists. Qed.

Lemma last_char_append (x p : string) :
  last_char (x +:+ p)
  = match last_char p with Some c => Some c | None => last_char x end.
Proof.
  induction x as [|c x IH].
  { change ("" +:+ p) with p. by destruct (last_char p). }
  change (last_char (String c x +:+ p)) with
    (match last_char (x +:+ p) with Some c' => Some c' | None => Some c end).
  rewrite IH. simpl. by destruct (last_char p), (last_char x).
Qed.

(** For every host and builder, the command line carries one [-v] token
    per mount, in the order of the mount map, just before the image. The
    token is host path, container path and mode, joined by colons, and it
    is followed by [:delegated] when, and only when, the system name of
    the host begins with [mac] (in any letter case); on any other host
    the token ends with the mode. *)
Lemma build_docker_cli_mount_tokens (host : Host) (b : ContainerBuilder) :
  ∃ pre tokens,
    build_docker_cli host b
    = pre ++ flat_map (fun t => ["-v"; t]) tokens
      ++ [image b; str_command (command b) +:+ " " +:+ quoted_args (args b)]
    ∧ Forall2
        (fun m t =>
           t = Source m +:+ ":" +:+ Target m +:+ ":" +:+ mode_text m
               +:+ (if is_mac host then ":delegated" else "")
           ∧ (ends_with t ":delegated" ↔ is_mac host = true)
           ∧ (is_mac host = false → ends_with t (":" +:+ mode_text m)))
        (PyDict.values (mounts b)) tokens.
Proof.
  set (token := fun m =>
         Source m +:+ ":" +:+ Target m +:+ ":" +:+ mode_text m
         +:+ (if is_mac host then ":delegated" else "")).
  destruct (cli_options_mounts host (build_docker_api false true b)) as [pre Hpre].
  exists pre, (map token (PyDict.values (mounts b))). split.
  - rewrite (build_docker_cli_structure host false true b), Hpre, <- app_assoc.
    cbn [build_docker_api arg_mounts]. do 2 f_equal.
    induction (PyDict.values (mounts b)) as [|m l IH]; [done|].
    simpl. by rewrite IH.
  - apply Forall2_fmap_r, Forall_Forall2_diag, Forall_forall.
    intros m _. subst token. split; [done|]. cbv beta. split.
    + destruct (is_mac host).
      * split; [done|]. intros _.
        exists (Source m +:+ ":" +:+ Target m +:+ ":" +:+ mode_text m).
        by rewrite !append_assoc.
      * split; [|done]. intros [x Hx]. apply (f_equal last_char) in Hx.
        rewrite !last_char_append in Hx. unfold mode_text in Hx.
        by destruct (ReadOnly m).
    + intros ->. exists (Source m +:+ ":" +:+ Target m).
      by rewrite append_empty_r, !append_assoc.
Qed.

(** C3, on the code. The suffix is meant for Docker Desktop on Mac, and
    the code looks for a system name that begins with [mac]; macOS
    reports the system name [Darwin]. On such a host no mount token of
    the command line carries [:delegated]: each is host path, container
    path and mode. *)
Theorem C3_no_delegated_suffix_on_darwin (host : Host) (b : ContainerBuilder) :
  platform_system host = "Darwin" →
  ∃ pre tokens,
    build_docker_cli host b
    = pre ++ flat_map (fun t => ["-v"; t]) tokens
      ++ [image b; str_command (command b) +:+ " " +:+ quoted_args (args b)]
    ∧ Forall2
        (fun m t =>
           t = Source m +:+ ":" +:+ Target m +:+ ":" +:+ mode_text m
           ∧ ¬ ends_with t ":delegated")
        (PyDict.values (mounts b)) tokens.
Proof.
  intros Hsys.
  assert (is_mac host = false) as Hmac by (unfold is_mac; by rewrite Hsys).
  destruct (build_docker_cli_mount_tokens host b) as (pre & tokens & E & Htok).
  exists pre, tokens. split; [exact E|].
  eapply Forall2_impl; [exact Htok|].
  intros m t (Ht & Hiff & _). rewrite Hmac in Ht, Hiff. split.
  - by rewrite append_empty_r in Ht.
  - intros Hend. apply Hiff in Hend. discriminate Hend.
Qed.

Lemma C3_no_delegated_suffix_on_darwin_witness :
  let host := mkHost "/opt/riptide/assets" 501 20 "Darwin" in
  let b := set_mount (ContainerBuilder_init "alpine" (CmdStr "sh")) "/src" "/dst" "rw" in
  build_docker_cli host b
  = ["docker"; "run"; "--rm"; "-it"; "--label"; "riptide=1";
     "-v"; "/src:/dst:rw"; "alpine"; "sh "]
  ∧ ∃ pre tokens,
      build_docker_cli host b
      = pre ++ flat_map (fun t => ["-v"; t]) tokens ++ ["alpine"; "sh "]
      ∧ Forall2
          (fun m t =>
             t = Source m +:+ ":" +:+ Target m +:+ ":" +:+ mode_text m
             ∧ ¬ ends_with t ":delegated")
          (PyDict.values (mounts b)) tokens.
Proof.
  intros host b. split; [by vm_compute|].
  apply (C3_no_delegated_suffix_on_darwin host b). reflexivity.
Defined.

(* ===================================================================== *)
(** * The is-managed marker *)
(* ===================================================================== *)

(** An operation that is not a caller's [set_label] on the marker key
    returns and keeps the marker. *)
Lemma run_op_keeps_marker host b op h :
  overwrites_marker op = false →
  PyDict.get (labels b) RIPTIDE_DOCKER_LABEL_IS_RIPTIDE = Some "1" →
  ∃ b' h',
    run_op host b op h = (inr b', h') ∧
    PyDict.get (labels b') RIPTIDE_DOCKER_LABEL_IS_RIPTIDE = Some "1".
Proof.
  intros Hop Hb. destruct op as [c| | | | | | |ic|service ic|alloc service|command ic];
    try (eexists _, _; split; [reflexivity|exact Hb]).
  - eexists _, _. split; [reflexivity|].
    destruct c as [k v|k v|hp cp m|cp hp]; try exact Hb.
    simpl in Hop. apply bool_decide_eq_false in Hop.
    simpl. rewrite get_set_ne; [exact Hb|done].
  - destruct (enable_riptide_entrypoint_returns host ic b h) as (b' & h' & E & Hl).
    exists b', h'. split; [exact E|]. by rewrite Hl.
  - destruct (init_from_service_returns host service ic b h)
      as (self & b' & h' & E & _ & _ & Hl).
    exists b', h'. split; [exact E|].
    rewrite Hl, get_update by apply service_labels_NoDup.
    by rewrite service_labels_marker.
  - eexists _, _. split; [reflexivity|].
    unfold service_add_main_port. destruct (svc_port service) as [p|]; [|exact Hb].
    simpl. rewrite get_set_ne; [exact Hb|done].
  - destruct (init_common_returns host command ic b h) as (b' & h' & E & Hl).
    exists b', h'. split; [exact E|]. by rewrite Hl.
Qed.

Lemma run_ops_keeps_marker host ops b h :
  Forall (fun op => overwrites_marker op = false) ops →
  PyDict.get (labels b) RIPTIDE_DOCKER_LABEL_IS_RIPTIDE = Some "1" →
  ∃ b' h',
    run_ops host ops b h = (inr b', h') ∧
    PyDict.get (labels b') RIPTIDE_DOCKER_LABEL_IS_RIPTIDE = Some "1".
Proof.
  intros Hops. revert b h. induction Hops as [|op ops Hop _ IH]; intros b h Hb.
  - by exists b, h.
  - destruct (run_op_keeps_marker host b op h Hop Hb) as (b1 & h1 & E1 & Hb1).
    destruct (IH b1 h1 Hb1) as (b' & h' & E & Hb').
    exists b', h'. split; [|exact Hb'].
    unfold run_ops in *. simpl. unfold mbind, M_bind at 1. by rewrite E1.
Qed.

(** A label of the builder is a pair of tokens of the command line. *)
Lemma build_docker_cli_label host b k v :
  PyDict.get (labels b) k = Some v →
  ∃ pre post,
    build_docker_cli host b = pre ++ ["--label"; k +:+ "=" +:+ v] ++ post.
Proof.
  intros Hk. apply get_Some_elem_of, list_elem_of_split in Hk as (l1 & l2 & Hl).
  rewrite (build_docker_cli_structure host false true b).
  unfold cli_options; cbn [build_docker_api arg_labels arg_environment].
  rewrite Hl, flat_map_app.
  change (flat_map cli_label ((k, v) :: l2))
    with (["--label"; k +:+ "=" +:+ v] ++ flat_map cli_label l2).
  rewrite <- !app_assoc.
  rewrite (app_assoc _ (flat_map cli_label l1)), (app_assoc (cli_switches _)).
  by eexists _, _.
Qed.

(** C10. A builder carries the label [riptide] with value ["1"] from its
    construction; after any run of builder operations none of which is a
    caller's [set_label] on that key, the builder is reached without an
    exception and both emitters carry the label; and [init_from_service]
    leaves every builder, whatever its labels were, with that label at
    ["1"]. *)
Theorem C10_is_managed_marker :
  (∀ image command,
     PyDict.get (labels (ContainerBuilder_init image command))
       RIPTIDE_DOCKER_LABEL_IS_RIPTIDE = Some "1")
  ∧
  (∀ host image command ops h detach remove,
     Forall (fun op => overwrites_marker op = false) ops →
     ∃ b h',
       run_ops host ops (ContainerBuilder_init image command) h = (inr b, h') ∧
       PyDict.get (arg_labels (build_docker_api detach remove b))
         RIPTIDE_DOCKER_LABEL_IS_RIPTIDE = Some "1" ∧
       ∃ pre post,
         build_docker_cli host b = pre ++ ["--label"; "riptide=1"] ++ post)
  ∧
  (∀ host service image_config b h,
     ∃ b' h',
       init_from_service host service image_config b h = (inr b', h') ∧
       PyDict.get (labels b') RIPTIDE_DOCKER_LABEL_IS_RIPTIDE = Some "1").
Proof.
  split; [done|]. split.
  - intros host image command ops h detach remove Hops.
    destruct (run_ops_keeps_marker host ops (ContainerBuilder_init image command) h Hops)
      as (b & h' & E & Hb); [done|].
    exists b, h'. split; [exact E|]. split; [exact Hb|].
    apply (build_docker_cli_label host b _ _ Hb).
  - intros host service image_config b h.
    destruct (init_from_service_returns host service image_config b h)
      as (self & b' & h' & E & _ & _ & Hl).
    exists b', h'. split; [exact E|].
    rewrite Hl, get_update by apply service_labels_NoDup.
    by rewrite service_labels_marker.
Qed.

(** A service-initialised builder, with other labels set by the caller. *)
Lemma C10_is_managed_marker_witness :
  let ops := [OpCall (SetLabel "team" "shop");
              OpInitFromService service_port_8080 (mkImageConfig (EpStr "run.sh") None);
              OpServiceAddMainPort (fun _ => 30005) service_port_8080;
              OpSetName "riptide__shop__web"] in
  ∃ b h',
    run_ops linux_host ops (ContainerBuilder_init "nginx" (CmdStr "nginx")) empty_store
    = (inr b, h') ∧
    PyDict.get (arg_labels (build_docker_api true false b))
      RIPTIDE_DOCKER_LABEL_IS_RIPTIDE = Some "1" ∧
    ∃ pre post,
      build_docker_cli linux_host b = pre ++ ["--label"; "riptide=1"] ++ post.
Proof.
  intros ops.
  destruct C10_is_managed_marker as (_ & Hops & _).
  apply (Hops linux_host "nginx" (CmdStr "nginx") ops empty_store true false).
  repeat constructor.
Defined.

(* ===================================================================== *)
(** * Starting a project *)
(* ===================================================================== *)

(** One turn of the loop for a project that has the key [services]: a
    fresh queue, registered last in the dict; a task for a declared
    service, a terminal error for any other. *)
Lemma start_project_body_spec project quick command_group qs0 service_name w :
  (∀ q, q ∈ qs0.*1 → (q < next_queue w)%nat) →
  start_project_body (document_of project) quick command_group qs0 service_name w
  = (inr (qs0 ++ [(next_queue w, service_name)]),
     mkWorld (docker_containers w) (networks w) (S (next_queue w))
       (<[next_queue w := queue_after project service_name]> (queues w))
       (executor w
        ++ scheduled_for project quick command_group [(next_queue w, service_name)])).
Proof.
  intros Hfresh.
  assert (PyDict.set qs0 (next_queue w) service_name
          = qs0 ++ [(next_queue w, service_name)]) as Hset.
  { apply set_fresh, get_not_key. intros Hq. apply Hfresh in Hq. lia. }
  unfold start_project_body, app_services, document_of, queue_after, scheduled_for,
    PyDict.mem, subscript.
  unfold mbind, M_bind, ResultQueue_new. rewrite Hset. simpl.
  destruct (PyDict.get (proj_services project) service_name) as [service|]; simpl.
  - by rewrite app_nil_r || done.
  - by rewrite insert_insert_eq, app_nil_r.
Qed.

Lemma start_project_loop project quick command_group services :
  ∀ qs0 w,
    (∀ q, q ∈ qs0.*1 → (q < next_queue w)%nat) →
    ∃ qs w',
      for_loop services
        (start_project_body (document_of project) quick command_group) qs0 w
      = (inr (qs0 ++ qs), w') ∧
      qs.*2 = services ∧
      qs.*1 = seq (next_queue w) (length services) ∧
      executor w' = executor w ++ scheduled_for project quick command_group qs ∧
      (∀ q, (q < next_queue w)%nat → queues w' !! q = queues w !! q) ∧
      Forall (fun qn => queues w' !! fst qn = Some (queue_after project (snd qn))) qs.
Proof.
  induction services as [|service_name services IH]; intros qs0 w Hfresh.
  - exists [], w. simpl. rewrite !app_nil_r. by repeat split.
  - simpl. unfold mbind, M_bind at 1.
    rewrite (start_project_body_spec _ _ _ _ _ _ Hfresh).
    set (w1 := mkWorld _ _ _ _ _).
    destruct (IH (qs0 ++ [(next_queue w, service_name)]) w1)
      as (qs & w' & E & Hnames & Hkeys & Hexec & Hframe & Hstates).
    { intros q. rewrite fmap_app, elem_of_app. simpl.
      intros [Hq|Hq]; [apply Hfresh in Hq; lia|].
      apply list_elem_of_singleton in Hq. lia. }
    exists ((next_queue w, service_name) :: qs), w'.
    split; [by rewrite E, <- app_assoc|].
    split; [by rewrite fmap_cons, Hnames|].
    split; [by rewrite fmap_cons, Hkeys|].
    split.
    { rewrite Hexec. subst w1. simpl. rewrite <- app_assoc. f_equal.
      unfold scheduled_for, PyDict.items. simpl.
      by destruct (PyDict.get (proj_services project) service_name). }
    split.
    { intros q Hq. rewrite Hframe by (simpl; lia). subst w1. simpl.
      rewrite lookup_insert_ne; [done|lia]. }
    constructor; [|exact Hstates].
    simpl. rewrite Hframe by (simpl; lia). subst w1. simpl.
    by rewrite lookup_insert_eq.
Qed.

Lemma NoDup_fst_functional {A B} (l : list (A * B)) x y1 y2 :
  NoDup l.*1 → (x, y1) ∈ l → (x, y2) ∈ l → y1 = y2.
Proof.
  induction l as [|[a b] l IH]; intros Hnd H1 H2.
  - by apply elem_of_nil in H1.
  - rewrite fmap_cons in Hnd. apply NoDup_cons in Hnd as [Ha Hnd].
    apply elem_of_cons in H1 as [H1|H1]; apply elem_of_cons in H2 as [H2|H2];
      simplify_eq; [done| | |by apply IH].
    + destruct Ha. apply list_elem_of_fmap. by exists (a, y2).
    + destruct Ha. apply list_elem_of_fmap. by exists (a, y1).
Qed.

Lemma scheduled_for_elem project quick command_group qs t :
  t ∈ scheduled_for project quick command_group qs ↔
  ∃ service_name,
    (task_queue t, service_name) ∈ qs ∧
    PyDict.get (proj_services project) service_name = Some (task_service t) ∧
    t = mkStartTask (proj_name project) (task_service t) command_group
          (task_queue t) quick.
Proof.
  unfold scheduled_for, PyDict.items. rewrite list_elem_of_omap. split.
  - intros ([q n] & Hin & Ht). simpl in Ht.
    destruct (PyDict.get (proj_services project) n) as [service|] eqn:E; [|done].
    simpl in Ht. simplify_eq. by exists n.
  - intros (n & Hin & Hget & Ht). exists (task_queue t, n). split; [done|].
    simpl. rewrite Hget. simpl. by rewrite <- Ht.
Qed.

(** For a project that has the key [services], [start_project] returns
    without an exception a dict with one queue per requested name, in
    order, the queues pairwise distinct.  The tasks it hands to the pool
    are those of the declared names and nothing else: the task of a
    declared name, with the declared service, is in the pool; the queue of
    a name the project does not declare has ended with the error
    [Service not found.] and no task of the pool refers to it. *)
Lemma start_project_with_services
    (project : Project) (services : list string) (quick : bool)
    (command_group : string) (w : World) :
  ∃ qs w',
    start_project (document_of project) services quick command_group w
    = (inr qs, w') ∧
    qs.*2 = services ∧
    NoDup qs.*1 ∧
    executor w' = executor w ++ scheduled_for project quick command_group qs ∧
    Forall
      (fun qn =>
         match PyDict.get (proj_services project) (snd qn) with
         | Some service =>
             mkStartTask (proj_name project) service command_group (fst qn) quick
               ∈ scheduled_for project quick command_group qs
         | None =>
             queues w' !! fst qn = Some (QueueEndedWithError "Service not found.") ∧
             ∀ t, t ∈ scheduled_for project quick command_group qs →
                  task_queue t ≠ fst qn
         end)
      qs.
Proof.
  unfold start_project, mbind, M_bind, network_start, modify.
  set (w0 := mkWorld _ _ _ _ _).
  destruct (start_project_loop project quick command_group services PyDict.empty w0)
    as (qs & w' & E & Hnames & Hkeys & Hexec & _ & Hstates).
  { intros q Hq. by apply elem_of_nil in Hq. }
  exists qs, w'. split; [exact E|]. split; [exact Hnames|].
  assert (NoDup qs.*1) as Hnodup by (rewrite Hkeys; apply NoDup_seq).
  split; [exact Hnodup|]. split; [exact Hexec|].
  apply Forall_forall. intros [q n] Hin. simpl.
  rewrite Forall_forall in Hstates. specialize (Hstates (q, n) Hin).
  unfold queue_after, PyDict.mem in Hstates. simpl in Hstates.
  destruct (PyDict.get (proj_services project) n) as [service|] eqn:Hget.
  - apply scheduled_for_elem. by exists n.
  - split; [exact Hstates|]. intros t Ht Hq. subst q.
    apply scheduled_for_elem in Ht as (n' & Hin' & Hget' & _).
    assert (n' = n) as ->.
    { by apply (NoDup_fst_functional qs (task_queue t)). }
    congruence.
Qed.

(** The first turn of the loop for a project without the key [services]:
    the queue is made, then the membership test raises. *)
Lemma start_project_body_without_services
    project quick command_group qs0 service_name w :
  doc_services project = None →
  start_project_body project quick command_group qs0 service_name w
  = (inl KeyError,
     mkWorld (docker_containers w) (networks w) (S (next_queue w))
       (<[next_queue w := QueueOpen]> (queues w)) (executor w)).
Proof.
  intros Hnone.
  unfold start_project_body, app_services, mbind, M_bind, ResultQueue_new, raise.
  by rewrite Hnone.
Qed.

(** C5. [start_project] does throw synchronously: for a project whose
    [app] has no key [services], which [pull_images] allows for, and a
    request that names at least one service, the membership test
    [service_name in project["app"]["services"]] raises [KeyError] out of
    [start_project].  No dict of queues is returned, no task is handed to
    the pool, and no queue is ended with an error that was not ended
    before. *)
Theorem C5_start_project_without_services_key
    (project : ProjectDocument) (service_name : string) (services : list string)
    (quick : bool) (command_group : string) (w : World)
    (Hmissing : doc_services project = None) :
  ∃ w',
    start_project project (service_name :: services) quick command_group w
    = (inl KeyError, w') ∧
    executor w' = executor w ∧
    ∀ q message,
      queues w' !! q = Some (QueueEndedWithError message) →
      queues w !! q = Some (QueueEndedWithError message).
Proof.
  unfold start_project, mbind, M_bind at 1, network_start, modify.
  set (w0 := mkWorld _ _ _ _ _).
  eexists. split.
  { simpl. unfold mbind, M_bind.
    by rewrite (start_project_body_without_services _ _ _ _ _ _ Hmissing). }
  split; [done|].
  intros q message. subst w0. simpl.
  destruct (decide (q = next_queue w)) as [->|Hne].
  - by rewrite lookup_insert_eq.
  - by rewrite lookup_insert_ne.
Qed.

(** A project with no services, asked to start [web]. *)
Lemma C5_start_project_without_services_key_witness :
  ∃ w',
    start_project (mkProjectDocument "shop" None) ["web"] false "default" empty_world
    = (inl KeyError, w') ∧
    executor w' = executor empty_world ∧
    ∀ q message,
      queues w' !! q = Some (QueueEndedWithError message) →
      queues empty_world !! q = Some (QueueEndedWithError message).
Proof.
  apply (C5_start_project_without_services_key
           (mkProjectDocument "shop" None) "web" [] false "default" empty_world).
  reflexivity.
Defined.

Example start_project_web_and_unknown :
  let r := start_project (document_of project_shop) ["web"; "unknown"] false "default"
             empty_world in
  fst r = inr [(0%nat, "web"); (1%nat, "unknown")] ∧
  queues (snd r) !! 1%nat = Some (QueueEndedWithError "Service not found.") ∧
  executor (snd r) = [mkStartTask "shop" service_port_8080 "default" 0 false].
Proof. by vm_compute. Qed.

Example start_project_without_services_key :
  fst (start_project (mkProjectDocument "shop" None) ["web"] false "default"
         empty_world)
  = inl KeyError.
Proof. by vm_compute. Qed.

(* ===================================================================== *)
(** * Looking up the address of a service *)
(* ===================================================================== *)

Example address_for_web :
  fst (address_for project_shop "web" world_with_web) = inr (Some ("127.0.0.1", "30005")).
Proof. by vm_compute. Qed.

Example address_for_db_without_port :
  fst (address_for project_shop "db" world_with_web) = inr None.
Proof. by vm_compute. Qed.

Example address_for_no_container :
  fst (address_for project_shop "web" empty_world) = inr None.
Proof. by vm_compute. Qed.

Example address_for_undeclared :
  fst (address_for project_shop "cache" world_with_web) = inl KeyError.
Proof. by vm_compute. Qed.

(** C7, as the specification states it, fails for a service name the
    project does not declare: the lookup of the service stands before the
    [try] block, and its [KeyError] reaches the caller. *)
Lemma C7_undeclared_service_counterexample :
  ¬ (∀ project service_name w,
       ∃ r, fst (address_for project service_name w) = inr r).
Proof.
  intros H. destruct (H project_shop "cache" world_with_web) as [r Hr].
  vm_compute in Hr. discriminate Hr.
Qed.

(** C7, amended. For every service the project declares, [address_for]
    returns without an exception and leaves the world as it is; it
    returns a host and a port exactly when the service declares a port,
    the client finds a container of the derived name, the status of that
    container is [running] and it carries the label [riptide_port]; the
    host is then [127.0.0.1] and the port is the value of the label. In
    every other case, a failure of the client included, it returns
    [None]. *)
Theorem C7_address_for
    (project : Project) (service_name : string) (service : Service) (w : World) :
  PyDict.get (proj_services project) service_name = Some service →
  ∃ r,
    address_for project service_name w = (inr r, w) ∧
    ∀ host port,
      r = Some (host, port) ↔
      host = "127.0.0.1" ∧
      is_Some (svc_port service) ∧
      ∃ c,
        docker_containers w (get_service_container_name (proj_name project) service_name)
        = inr c ∧
        status c = "running" ∧
        PyDict.get (container_labels c) RIPTIDE_DOCKER_LABEL_HTTP_PORT = Some port.
Proof.
  intros Hget.
  unfold address_for, subscript, try_except, containers_get, mbind, M_bind.
  rewrite Hget. simpl.
  destruct (svc_port service) as [p|] eqn:Hport; simpl.
  2:{ exists None. split; [done|]. intros host port. split; [done|].
      intros (_ & [? ?] & _). done. }
  rewrite ?bool_decide_true by eauto. simpl.
  destruct (docker_containers w _) as [msg|c] eqn:Hc; simpl.
  { exists None. split; [done|]. intros host port. split; [done|].
    intros (_ & _ & c & ? & _). done. }
  case_bool_decide as Hst; simpl.
  { exists None. split; [done|]. intros host port. split; [done|].
    intros (_ & _ & c' & ? & ? & _). by simplify_eq. }
  destruct (PyDict.get (container_labels c) RIPTIDE_DOCKER_LABEL_HTTP_PORT)
    as [port0|] eqn:Hl; simpl.
  - exists (Some ("127.0.0.1", port0)). split; [done|]. intros host port. split.
    + intros ?. simplify_eq. split; [done|]. split; [eauto|]. by exists c.
    + intros (-> & _ & c' & ? & _ & ?). by simplify_eq.
  - exists None. split; [done|]. intros host port. split; [done|].
    intros (_ & _ & c' & ? & _ & ?). by simplify_eq.
Qed.

Lemma C7_address_for_witness :
  ∃ r,
    address_for project_shop "web" world_with_web = (inr r, world_with_web) ∧
    r = Some ("127.0.0.1", "30005").
Proof.
  destruct (C7_address_for project_shop "web" service_port_8080 world_with_web)
    as (r & E & Hr); [reflexivity|].
  exists r. split; [exact E|].
  vm_compute in E. by injection E as <-.
Defined.

(* ===================================================================== *)
(** * Further properties of the builder *)
(* ===================================================================== *)

Lemma builder_eq (b1 b2 : ContainerBuilder) :
  env b1 = env b2 → labels b1 = labels b2 → mounts b1 = mounts b2 →
  ports b1 = ports b2 → network b1 = network b2 → name b1 = name b2 →
  entrypoint b1 = entrypoint b2 → command b1 = command b2 → args b1 = args b2 →
  work_dir b1 = work_dir b2 → image b1 = image b2 →
  run_as_root b1 = run_as_root b2 → hostname b1 = hostname b2 →
  b1 = b2.
Proof. destruct b1, b2; simpl; intros; by subst. Qed.

Section more_dict_facts.
Context {K V : Type} `{Countable K}.
Implicit Types (d e : PyDict.t K V) (k : K) (v : V).

(** Writing the value a key already holds changes nothing. *)
Lemma set_same d k v : PyDict.get d k = Some v → PyDict.set d k v = d.
Proof.
  induction d as [|[k' v'] r IH]; simpl; [done|].
  case_decide; intros E; [by simplify_eq|]. by rewrite IH.
Qed.

Lemma update_noop d e :
  (∀ k v, (k, v) ∈ e → PyDict.get d k = Some v) → PyDict.update d e = d.
Proof.
  induction e as [|[k v] e IH]; intros He; [done|].
  rewrite update_cons, set_same by (apply He; left).
  apply IH. intros k' v' Hin. apply He. by right.
Qed.

Lemma get_elem_of_NoDup d k v :
  NoDup d.*1 → (k, v) ∈ d → PyDict.get d k = Some v.
Proof.
  induction d as [|[k' v'] r IH]; intros Hnd Hin; [by apply elem_of_nil in Hin|].
  rewrite fmap_cons in Hnd. apply NoDup_cons in Hnd as [Hk Hnd].
  simpl. apply elem_of_cons in Hin as [Hin|Hin].
  - simplify_eq. by rewrite decide_True.
  - rewrite decide_False; [by apply IH|].
    intros ->. apply Hk. apply list_elem_of_fmap. by exists (k, v).
Qed.

(** [d.update(e)] twice is [d.update(e)] once. *)
Lemma update_idem d e :
  NoDup e.*1 → PyDict.update (PyDict.update d e) e = PyDict.update d e.
Proof.
  intros He. apply update_noop. intros k v Hin.
  rewrite get_update by done. by rewrite (get_elem_of_NoDup e k v).
Qed.

Lemma get_fmap_values {W} (f : K → V → W) d k :
  PyDict.get (map (fun kv => (fst kv, f (fst kv) (snd kv))) d) k
  = f k <$> PyDict.get d k.
Proof.
  induction d as [|[k' v'] r IH]; simpl; [done|].
  case_decide; [by subst|done].
Qed.

End more_dict_facts.

Lemma parse_entrypoint_NoDup entrypoint h d h' :
  parse_entrypoint entrypoint h = (inr d, h') → NoDup d.*1.
Proof.
  destruct entrypoint as [|r|s].
  - intros [= <- <-]. compute_done.
  - destruct (h r) as [|x rest] eqn:E.
    + unfold parse_entrypoint, mbind, M_bind, list_read. rewrite E.
      intros [= <- <-]. compute_done.
    + rewrite (parse_entrypoint_exec r h x rest E). intros [= <- <-].
      apply NoDup_singleton.
  - unfold parse_entrypoint. destruct (PyStr.truthy s); intros [= <- <-];
      compute_done.
Qed.

(** A string or absent entrypoint is parsed without touching the store. *)
Lemma parse_entrypoint_pure entrypoint h :
  (∀ r, entrypoint ≠ EpList r) →
  ∃ d, parse_entrypoint entrypoint h = (inr d, h) ∧ NoDup d.*1.
Proof.
  intros Hne. destruct entrypoint as [|r|s]; [|by destruct (Hne r)|].
  - eexists. split; [done|]. compute_done.
  - unfold parse_entrypoint. destruct (PyStr.truthy s); eexists; (split; [done|]);
      compute_done.
Qed.

Lemma enable_riptide_entrypoint_eq host image_config b h d h' :
  parse_entrypoint (ic_Entrypoint image_config) h = (inr d, h') →
  enable_riptide_entrypoint host image_config b h
  = (inr (set_entrypoint
            (set_env_all
               (set_mount (with_run_as_root b true) (entrypoint_script host)
                  ENTRYPOINT_CONTAINER_PATH "ro")
               d)
            ENTRYPOINT_CONTAINER_PATH), h').
Proof. intros E. unfold enable_riptide_entrypoint, mbind, M_bind. by rewrite E. Qed.

Lemma set_env_all_mounts b d : mounts (set_env_all b d) = mounts b.
Proof. by apply (fold_left_frame _ mounts). Qed.

Lemma set_env_all_ports b d : ports (set_env_all b d) = ports b.
Proof. by apply (fold_left_frame _ ports). Qed.

Lemma set_env_all_run_as_root b d : run_as_root (set_env_all b d) = run_as_root b.
Proof. by apply (fold_left_frame _ run_as_root). Qed.

(** X1. The entrypoint override always returns, and afterwards the
    builder runs as root, its entrypoint is the wrapper path, the wrapper
    script of the host is mounted read-only at that path, every variable
    of the entrypoint protocol is in the environment, and every other
    environment variable, every other mount, the labels and the ports are
    as before; so the argument bundle asks for user 0 and for the wrapper
    as its only entrypoint element. *)
Theorem X1_enable_riptide_entrypoint
    (host : Host) (image_config : ImageConfig) (b : ContainerBuilder) (h : store) :
  ∃ d b' h',
    parse_entrypoint (ic_Entrypoint image_config) h = (inr d, h') ∧
    enable_riptide_entrypoint host image_config b h = (inr b', h') ∧
    run_as_root b' = true ∧
    entrypoint b' = Some ENTRYPOINT_CONTAINER_PATH ∧
    PyDict.get (mounts b') (entrypoint_script host)
      = Some (bind_mount (entrypoint_script host) ENTRYPOINT_CONTAINER_PATH "ro") ∧
    ReadOnly (bind_mount (entrypoint_script host) ENTRYPOINT_CONTAINER_PATH "ro") = true ∧
    (∀ hp, hp ≠ entrypoint_script host →
           PyDict.get (mounts b') hp = PyDict.get (mounts b) hp) ∧
    (∀ k, PyDict.get (env b') k = last_or (PyDict.get d k) (PyDict.get (env b) k)) ∧
    labels b' = labels b ∧ ports b' = ports b ∧
    (∀ detach remove,
       arg_user (build_docker_api detach remove b') = Some 0 ∧
       arg_entrypoint (build_docker_api detach remove b')
       = Some [ENTRYPOINT_CONTAINER_PATH]).
Proof.
  destruct (parse_entrypoint_returns (ic_Entrypoint image_config) h) as (d & h' & E).
  exists d. eexists _, h'. split; [exact E|].
  split; [by apply enable_riptide_entrypoint_eq|].
  pose proof (parse_entrypoint_NoDup _ _ _ _ E) as Hd.
  split.
  { cbn [set_entrypoint with_entrypoint run_as_root].
    by rewrite set_env_all_run_as_root. }
  split; [done|].
  split.
  { cbn [set_entrypoint with_entrypoint mounts]. rewrite set_env_all_mounts.
    apply get_set_eq. }
  split; [done|].
  split.
  { intros hp Hhp. cbn [set_entrypoint with_entrypoint mounts].
    rewrite set_env_all_mounts. simpl. by rewrite get_set_ne. }
  split.
  { intros k. cbn [set_entrypoint with_entrypoint env].
    rewrite set_env_all_env. by apply get_update. }
  split.
  { cbn [set_entrypoint with_entrypoint labels]. by rewrite set_env_all_labels. }
  split.
  { cbn [set_entrypoint with_entrypoint ports]. by rewrite set_env_all_ports. }
  intros detach remove. unfold build_docker_api. cbn [arg_user arg_entrypoint].
  cbn [set_entrypoint with_entrypoint run_as_root entrypoint].
  by rewrite set_env_all_run_as_root.
Qed.

(** X2. When the image declares no exec-form entrypoint, the entrypoint
    override is idempotent: a second call with the same image
    configuration returns the builder the first call returned. *)
Theorem X2_enable_riptide_entrypoint_idempotent
    (host : Host) (image_config : ImageConfig) (b : ContainerBuilder) (h : store) :
  (∀ r, ic_Entrypoint image_config ≠ EpList r) →
  ∃ b1,
    enable_riptide_entrypoint host image_config b h = (inr b1, h) ∧
    enable_riptide_entrypoint host image_config b1 h = (inr b1, h).
Proof.
  intros Hne.
  destruct (parse_entrypoint_pure (ic_Entrypoint image_config) h Hne) as (d & E & Hd).
  eexists. split; [by apply enable_riptide_entrypoint_eq|].
  rewrite (enable_riptide_entrypoint_eq _ _ _ _ _ _ E). f_equal. f_equal.
  apply builder_eq;
    cbn [set_entrypoint with_entrypoint env labels mounts ports network name
         entrypoint command args work_dir image run_as_root hostname];
    try done;
    try (unfold set_env_all; by rewrite !(fold_left_frame _ _) by done).
  - do 3 (rewrite ?set_env_all_env;
          cbn [set_mount with_mounts with_run_as_root set_entrypoint
               with_entrypoint env]).
    by apply update_idem.
  - do 3 (rewrite ?set_env_all_mounts;
          cbn [set_mount with_mounts with_run_as_root set_entrypoint
               with_entrypoint mounts]).
    apply set_same, get_set_eq.
  - by rewrite !set_env_all_run_as_root.
Qed.

Lemma X2_enable_riptide_entrypoint_idempotent_witness :
  ∃ b1,
    enable_riptide_entrypoint linux_host (mkImageConfig (EpStr "run.sh") None)
      (ContainerBuilder_init "alpine" (CmdStr "sh")) empty_store = (inr b1, empty_store) ∧
    enable_riptide_entrypoint linux_host (mkImageConfig (EpStr "run.sh") None)
      b1 empty_store = (inr b1, empty_store).
Proof.
  apply (X2_enable_riptide_entrypoint_idempotent linux_host
           (mkImageConfig (EpStr "run.sh") None)).
  intros r. discriminate.
Defined.

Lemma mode_or_rw_ro (mode : option string) :
  bool_decide (mode_or_rw mode = "ro") = bool_decide (mode = Some "ro").
Proof.
  unfold mode_or_rw. destruct mode as [[|c s]|]; simpl; try done.
  apply bool_decide_ext. split; congruence.
Qed.

Lemma set_mount_all_mounts b d :
  mounts (set_mount_all b d) = PyDict.update (mounts b) (map volume_mount d).
Proof.
  unfold set_mount_all, PyDict.update, PyDict.items. revert b.
  induction d as [|[hp vol] d IH]; intros b; simpl; [done|]. by rewrite IH.
Qed.

Lemma get_volume_mount (d : PyDict.t string Volume) hp :
  PyDict.get (map volume_mount d) hp
  = (fun vol => bind_mount hp (vol_bind vol) (mode_or_rw (vol_mode vol)))
    <$> PyDict.get d hp.
Proof.
  apply (get_fmap_values
           (fun hp vol => bind_mount hp (vol_bind vol) (mode_or_rw (vol_mode vol)))).
Qed.

Lemma volume_mount_keys (d : PyDict.t string Volume) : (map volume_mount d).*1 = d.*1.
Proof.
  induction d as [|[hp vol] d IH]; [done|].
  change (hp :: (map volume_mount d).*1 = hp :: d.*1). by rewrite IH.
Qed.

(** What the common initialisation returns, spelled out. *)
Lemma init_common_eq {D} `{Document D} host (doc : D) image_config b h d h' :
  parse_entrypoint (ic_Entrypoint image_config) h = (inr d, h') →
  _init_common host doc image_config b h
  = (inr (set_env_all
            (set_mount_all
               (set_entrypoint
                  (set_env_all
                     (set_mount (with_run_as_root b true) (entrypoint_script host)
                        ENTRYPOINT_CONTAINER_PATH "ro")
                     d)
                  ENTRYPOINT_CONTAINER_PATH)
               (collect_volumes doc))
            (collect_environment doc)), h').
Proof.
  intros E. unfold _init_common, mbind, M_bind.
  by rewrite (enable_riptide_entrypoint_eq _ _ _ _ _ _ E).
Qed.

Lemma set_mount_all_env b d : env (set_mount_all b d) = env b.
Proof. by apply (fold_left_frame _ env). Qed.

(** X3. The common initialisation of a service or command document whose
    volume and environment declarations have distinct keys always
    returns, and then every declared volume is mounted at its bind target,
    read-only exactly when its mode is [ro] (an absent or empty mode
    gives read-write), also when it shadows the wrapper script or an
    earlier mount of the same host path; the wrapper script stays mounted
    read-only unless a volume declares its host path; any other host path
    keeps the mount it had; and every declared environment entry is in
    the environment, also when it names a variable of the entrypoint
    protocol. *)
Theorem X3_init_common_volumes_and_environment
    {D} `{Document D} (host : Host) (doc : D) (image_config : ImageConfig)
    (b : ContainerBuilder) (h : store) :
  NoDup (collect_volumes doc).*1 →
  NoDup (collect_environment doc).*1 →
  ∃ b' h',
    _init_common host doc image_config b h = (inr b', h') ∧
    (∀ hp vol,
       PyDict.get (collect_volumes doc) hp = Some vol →
       PyDict.get (mounts b') hp
       = Some (mkMount (vol_bind vol) hp "bind"
                 (bool_decide (vol_mode vol = Some "ro")) "delegated")) ∧
    (PyDict.get (collect_volumes doc) (entrypoint_script host) = None →
     PyDict.get (mounts b') (entrypoint_script host)
     = Some (mkMount ENTRYPOINT_CONTAINER_PATH (entrypoint_script host) "bind"
               true "delegated")) ∧
    (∀ hp, hp ≠ entrypoint_script host →
           PyDict.get (collect_volumes doc) hp = None →
           PyDict.get (mounts b') hp = PyDict.get (mounts b) hp) ∧
    (∀ k v,
       PyDict.get (collect_environment doc) k = Some v →
       PyDict.get (env b') k = Some v).
Proof.
  intros Hvol Henv.
  destruct (parse_entrypoint_returns (ic_Entrypoint image_config) h) as (d & h' & E).
  eexists _, h'. split; [by apply init_common_eq|].
  assert (∀ hp,
            PyDict.get
              (mounts
                 (set_env_all
                    (set_mount_all
                       (set_entrypoint
                          (set_env_all
                             (set_mount (with_run_as_root b true)
                                (entrypoint_script host) ENTRYPOINT_CONTAINER_PATH "ro")
                             d)
                          ENTRYPOINT_CONTAINER_PATH)
                       (collect_volumes doc))
                    (collect_environment doc))) hp
            = last_or
                ((fun vol => bind_mount hp (vol_bind vol) (mode_or_rw (vol_mode vol)))
                 <$> PyDict.get (collect_volumes doc) hp)
                (PyDict.get
                   (PyDict.set (mounts b) (entrypoint_script host)
                      (bind_mount (entrypoint_script host)
                         ENTRYPOINT_CONTAINER_PATH "ro")) hp)) as Hm.
  { intros hp. rewrite set_env_all_mounts, set_mount_all_mounts.
    rewrite get_update by (by rewrite volume_mount_keys).
    rewrite get_volume_mount.
    cbn [set_entrypoint with_entrypoint mounts]. by rewrite set_env_all_mounts. }
  split; [|split; [|split]].
  - intros hp vol Hget. rewrite Hm, Hget. simpl. unfold bind_mount.
    by rewrite mode_or_rw_ro.
  - intros Hget. rewrite Hm, Hget. simpl. apply get_set_eq.
  - intros hp Hhp Hget. rewrite Hm, Hget. simpl. by rewrite get_set_ne.
  - intros k v Hget. rewrite set_env_all_env, get_update by done.
    by rewrite Hget.
Qed.

Lemma X3_init_common_volumes_and_environment_witness :
  ∃ b' h',
    _init_common linux_host command_with_volumes (mkImageConfig EpNone None)
      (ContainerBuilder_init "alpine" (CmdStr "sh")) empty_store = (inr b', h') ∧
    PyDict.get (mounts b') "/etc/ssl"
    = Some (mkMount "/etc/ssl" "/etc/ssl" "bind" true "delegated") ∧
    PyDict.get (mounts b') "/home/me/src"
    = Some (mkMount "/src" "/home/me/src" "bind" false "delegated").
Proof.
  destruct (X3_init_common_volumes_and_environment linux_host command_with_volumes
              (mkImageConfig EpNone None)
              (ContainerBuilder_init "alpine" (CmdStr "sh")) empty_store)
    as (b' & h' & E & Hvol & _); [compute_done|compute_done|].
  exists b', h'. split; [exact E|]. split.
  - apply (Hvol "/etc/ssl" (mkVolume "/etc/ssl" (Some "ro"))). reflexivity.
  - apply (Hvol "/home/me/src" (mkVolume "/src" None)). reflexivity.
Defined.

(** What the common initialisation leaves alone. *)
Lemma init_common_frame {D} `{Document D} host (doc : D) image_config b h :
  ∃ self h',
    _init_common host doc image_config b h = (inr self, h') ∧
    labels self = labels b ∧ ports self = ports b ∧
    network self = network b ∧ name self = name b ∧
    command self = command b ∧ args self = args b ∧
    work_dir self = work_dir b ∧ image self = image b ∧
    hostname self = hostname b ∧
    run_as_root self = true ∧ entrypoint self = Some ENTRYPOINT_CONTAINER_PATH.
Proof.
  destruct (parse_entrypoint_returns (ic_Entrypoint image_config) h) as (d & h' & E).
  eexists _, h'. split; [by apply init_common_eq|].
  repeat split.
  all: unfold set_env_all at 1; rewrite (fold_left_frame _ _) by done.
  all: unfold set_mount_all; rewrite (fold_left_frame _ _) by done.
  all: cbn [set_entrypoint with_entrypoint labels ports network name command
            args work_dir image hostname run_as_root entrypoint]; try done.
  all: unfold set_env_all; by rewrite (fold_left_frame _ _) by done.
Qed.

(** X4. Initialising from a command document always returns, and leaves
    the labels, the ports, the name, the network, the command, the extra
    arguments, the working directory, the image and the hostname of the
    builder as they were; the builder then runs as root with the wrapper
    as entrypoint. *)
Theorem X4_init_from_command_frame
    (host : Host) (command_doc : Command) (image_config : ImageConfig)
    (b : ContainerBuilder) (h : store) :
  ∃ b' h',
    init_from_command host command_doc image_config b h = (inr b', h') ∧
    labels b' = labels b ∧ ports b' = ports b ∧
    network b' = network b ∧ name b' = name b ∧
    command b' = command b ∧ args b' = args b ∧
    work_dir b' = work_dir b ∧ image b' = image b ∧
    hostname b' = hostname b ∧
    run_as_root b' = true ∧ entrypoint b' = Some ENTRYPOINT_CONTAINER_PATH.
Proof. apply init_common_frame. Qed.

(** What [init_from_service] returns, in terms of the common
    initialisation. *)
Lemma init_from_service_eq host service image_config b h self h' :
  _init_common host service image_config b h = (inr self, h') →
  init_from_service host service image_config b h
  = (inr (set_port_all
            (set_label_all
               (set_env_all self
                  (PyDict.update (service_collect_logging_commands service)
                     (service_collect_entrypoint_user_settings
                        service (getuid host) (getgid host) image_config)))
               (service_collect_labels service (svc_project_name service)))
            (svc_ports service)), h').
Proof. intros E. unfold init_from_service, mbind, M_bind. by rewrite E. Qed.

Lemma set_port_all_ports b d : ports (set_port_all b d) = PyDict.update (ports b) d.
Proof.
  unfold set_port_all, PyDict.update, PyDict.items. revert b.
  induction d as [|[k v] d IH]; intros b; simpl; [done|]. by rewrite IH.
Qed.

Lemma set_label_all_ports b d : ports (set_label_all b d) = ports b.
Proof. by apply (fold_left_frame _ ports). Qed.

Lemma service_labels_get service project_name k :
  PyDict.get (service_collect_labels service project_name) k
  = if decide (k = RIPTIDE_DOCKER_LABEL_IS_RIPTIDE) then Some "1"
    else if decide (k = RIPTIDE_DOCKER_LABEL_PROJECT) then Some project_name
    else if decide (k = RIPTIDE_DOCKER_LABEL_SERVICE) then Some (svc_name service)
    else if decide (k = RIPTIDE_DOCKER_LABEL_MAIN)
         then Some (if has_main_role service then "1" else "0")
    else None.
Proof.
  unfold service_collect_labels, has_main_role.
  destruct (svc_roles service) as [roles|]; [case_bool_decide|];
    simpl; repeat case_decide; by simplify_eq.
Qed.

(** X5. [init_from_service] always returns, and then the labels hold the
    marker ["1"], the project name, the service name and the main flag,
    which is ["1"] exactly when the roles of the service include [main]
    and ["0"] otherwise (also when the service declares no roles); every
    other label, the assigned-port label included, keeps the value it
    had. *)
Theorem X5_init_from_service_labels
    (host : Host) (service : Service) (image_config : ImageConfig)
    (b : ContainerBuilder) (h : store) :
  ∃ b' h',
    init_from_service host service image_config b h = (inr b', h') ∧
    PyDict.get (labels b') RIPTIDE_DOCKER_LABEL_IS_RIPTIDE = Some "1" ∧
    PyDict.get (labels b') RIPTIDE_DOCKER_LABEL_PROJECT
      = Some (svc_project_name service) ∧
    PyDict.get (labels b') RIPTIDE_DOCKER_LABEL_SERVICE = Some (svc_name service) ∧
    PyDict.get (labels b') RIPTIDE_DOCKER_LABEL_MAIN
      = Some (if has_main_role service then "1" else "0") ∧
    (∀ k, k ∉ [RIPTIDE_DOCKER_LABEL_IS_RIPTIDE; RIPTIDE_DOCKER_LABEL_PROJECT;
               RIPTIDE_DOCKER_LABEL_SERVICE; RIPTIDE_DOCKER_LABEL_MAIN] →
          PyDict.get (labels b') k = PyDict.get (labels b) k).
Proof.
  destruct (init_from_service_returns host service image_config b h)
    as (self & b' & h' & E & Hself & _ & Hl).
  exists b', h'. split; [exact E|].
  assert (∀ k, PyDict.get (labels b') k
               = last_or (PyDict.get (service_collect_labels service
                                        (svc_project_name service)) k)
                   (PyDict.get (labels b) k)) as Hget.
  { intros k. rewrite Hl, Hself. apply get_update, service_labels_NoDup. }
  repeat split.
  1-4: by rewrite Hget, service_labels_get.
  intros k Hk. rewrite Hget, service_labels_get.
  repeat case_decide; try done; subst; destruct Hk; set_solver.
Qed.

(** X6. [init_from_service], for a service whose additional ports have
    distinct keys, always returns, and then the port map holds every
    declared additional port and otherwise what it held before, and the
    assigned-port label is as before: the main port is neither allocated
    nor published. *)
Theorem X6_init_from_service_ports
    (host : Host) (service : Service) (image_config : ImageConfig)
    (b : ContainerBuilder) (h : store) :
  NoDup (svc_ports service).*1 →
  ∃ b' h',
    init_from_service host service image_config b h = (inr b', h') ∧
    (∀ c, PyDict.get (ports b') c
          = last_or (PyDict.get (svc_ports service) c) (PyDict.get (ports b) c)) ∧
    PyDict.get (labels b') RIPTIDE_DOCKER_LABEL_HTTP_PORT
    = PyDict.get (labels b) RIPTIDE_DOCKER_LABEL_HTTP_PORT.
Proof.
  intros Hports.
  destruct (init_common_frame host service image_config b h)
    as (self & h' & E & Hl & Hp & _).
  eexists _, h'. split; [by apply init_from_service_eq|]. split.
  - intros c. rewrite set_port_all_ports, set_label_all_ports, set_env_all_ports, Hp.
    by apply get_update.
  - rewrite set_port_all_labels, set_label_all_labels, set_env_all_labels, Hl.
    rewrite get_update by apply service_labels_NoDup.
    by rewrite service_labels_get.
Qed.

Lemma X6_init_from_service_ports_witness :
  ∃ b' h',
    init_from_service linux_host service_with_ports (mkImageConfig EpNone None)
      (ContainerBuilder_init "mysql" (CmdStr "mysqld")) empty_store = (inr b', h') ∧
    PyDict.get (ports b') 9104 = Some 9104 ∧
    PyDict.get (ports b') 3306 = None ∧
    PyDict.get (labels b') RIPTIDE_DOCKER_LABEL_HTTP_PORT = None.
Proof.
  destruct (X6_init_from_service_ports linux_host service_with_ports
              (mkImageConfig EpNone None)
              (ContainerBuilder_init "mysql" (CmdStr "mysqld")) empty_store)
    as (b' & h' & E & Hp & Hl); [compute_done|].
  exists b', h'. split; [exact E|]. split; [exact (Hp 9104)|].
  split; [exact (Hp 3306)|exact Hl].
Defined.

(* ===================================================================== *)
(** * Logging commands, and names *)
(* ===================================================================== *)

(** Prepending a fixed string is injective. *)
Lemma append_inv_head (p a b : string) : p +:+ a = p +:+ b → a = b.
Proof.
  induction p as [|c p IH]; [done|].
  change (String c (p +:+ a) = String c (p +:+ b) → a = b).
  intros [= E]. by apply IH.
Qed.

Lemma get_prefixed_keys (p : string) (d : PyDict.t string string) (k : string) :
  PyDict.get (map (fun kv => (p +:+ fst kv, snd kv)) d) (p +:+ k) = PyDict.get d k.
Proof.
  induction d as [|[k' v'] d IH]; [done|].
  change (PyDict.get ((p +:+ k', v') :: map (fun kv => (p +:+ fst kv, snd kv)) d)
            (p +:+ k) = PyDict.get ((k', v') :: d) k).
  simpl. rewrite IH. repeat case_decide; try done.
  - by destruct H0; apply (append_inv_head p).
  - by destruct H; subst.
Qed.

Lemma prefixed_keys_NoDup (p : string) (d : PyDict.t string string) :
  NoDup d.*1 → NoDup (map (fun kv => (p +:+ fst kv, snd kv)) d).*1.
Proof.
  induction d as [|[k v] d IH]; [done|].
  change (NoDup (k :: d.*1) →
          NoDup ((p +:+ k) :: (map (fun kv => (p +:+ fst kv, snd kv)) d).*1)).
  rewrite !NoDup_cons. intros [Hk Hd]. split; [|auto].
  intros Hin. apply Hk.
  apply list_elem_of_fmap in Hin as ([k1 v1] & E1 & Hin).
  apply list_elem_of_fmap in Hin as ([k2 v2] & E2 & Hin).
  simpl in E1, E2. injection E2 as -> ->. apply append_inv_head in E1 as ->.
  apply list_elem_of_fmap. by exists (k2, v2).
Qed.

Lemma logging_commands_update service commands :
  svc_logging service = Some (Some commands) →
  service_collect_logging_commands service
  = PyDict.update PyDict.empty
      (map (fun kv => (EENV_COMMAND_LOG_PREFIX +:+ fst kv, snd kv)) commands).
Proof.
  intros E. unfold service_collect_logging_commands, PyDict.update, PyDict.items.
  rewrite E. clear E. generalize (@PyDict.empty string string).
  induction commands as [|[k v] commands IH]; intros acc; [done|].
  simpl. by rewrite IH.
Qed.

Lemma user_settings_keys service user user_group image_config k :
  k ∉ [EENV_USER; EENV_GROUP; EENV_RUN_MAIN_CMD_AS_USER; EENV_USER_RUN] →
  PyDict.get
    (service_collect_entrypoint_user_settings service user user_group image_config) k
  = None.
Proof.
  intros Hk.
  assert (k ≠ EENV_USER ∧ k ≠ EENV_GROUP ∧ k ≠ EENV_RUN_MAIN_CMD_AS_USER
          ∧ k ≠ EENV_USER_RUN) as (H1 & H2 & H3 & H4).
  { repeat split; intros ->; apply Hk; set_solver. }
  unfold service_collect_entrypoint_user_settings.
  destruct (svc_dont_create_user service), (svc_run_as_current_user service),
    (ic_User image_config) as [u|]; simpl;
    try (destruct (bool_decide (u ≠ "")));
    simpl; repeat case_decide; by simplify_eq.
Qed.

Lemma logging_key_not_user_setting name :
  EENV_COMMAND_LOG_PREFIX +:+ name
  ∉ [EENV_USER; EENV_GROUP; EENV_RUN_MAIN_CMD_AS_USER; EENV_USER_RUN].
Proof.
  rewrite !not_elem_of_cons. repeat split; [..|apply not_elem_of_nil];
    intros E; vm_compute in E; discriminate E.
Qed.

(** X7. For a service that declares named logging commands with distinct
    names, [init_from_service] always returns, and then the environment
    holds, for every declared command, the variable named by the logging
    prefix followed by the command name, with the command as its value;
    no document environment entry and no user setting overrides it. *)
Theorem X7_init_from_service_logging_commands
    (host : Host) (service : Service) (image_config : ImageConfig)
    (b : ContainerBuilder) (h : store) (commands : PyDict.t string string) :
  svc_logging service = Some (Some commands) →
  NoDup commands.*1 →
  ∃ b' h',
    init_from_service host service image_config b h = (inr b', h') ∧
    ∀ cmdname command_text,
      PyDict.get commands cmdname = Some command_text →
      PyDict.get (env b') (EENV_COMMAND_LOG_PREFIX +:+ cmdname) = Some command_text.
Proof.
  intros Hlog Hnd.
  destruct (init_from_service_returns host service image_config b h)
    as (self & b' & h' & E & _ & Henv & _).
  exists b', h'. split; [exact E|]. intros cmdname command_text Hget.
  rewrite Henv, get_update by apply update_NoDup, logging_commands_NoDup.
  rewrite get_update by apply user_settings_NoDup.
  rewrite user_settings_keys by apply logging_key_not_user_setting.
  rewrite (logging_commands_update service commands Hlog).
  rewrite get_update by by apply prefixed_keys_NoDup.
  by rewrite get_prefixed_keys, Hget.
Qed.

Lemma X7_init_from_service_logging_commands_witness :
  ∃ b' h',
    init_from_service linux_host service_with_ports (mkImageConfig EpNone None)
      (ContainerBuilder_init "mysql" (CmdStr "mysqld")) empty_store = (inr b', h') ∧
    PyDict.get (env b') "RIPTIDE__DOCKER_CMD_LOGGING_slow"
    = Some "tail -f /var/log/slow.log".
Proof.
  destruct (X7_init_from_service_logging_commands linux_host service_with_ports
              (mkImageConfig EpNone None)
              (ContainerBuilder_init "mysql" (CmdStr "mysqld")) empty_store
              [("slow", "tail -f /var/log/slow.log")])
    as (b' & h' & E & Hlog); [reflexivity|compute_done|].
  exists b', h'. split; [exact E|]. apply (Hlog "slow"). reflexivity.
Defined.

(** X8. Container and network names separate what they must: within one
    project two services with different names get different container
    names, two projects with different names get different networks, the
    container of a service never has the name of the project network,
    and the command containers of two invoking processes with different
    process ids differ, for the same project and command. *)
Theorem X8_names_are_distinct :
  (∀ project_name s1 s2,
     get_service_container_name project_name s1
     = get_service_container_name project_name s2 → s1 = s2)
  ∧ (∀ p1 p2, get_network_name p1 = get_network_name p2 → p1 = p2)
  ∧ (∀ project_name service_name,
       get_service_container_name project_name service_name
       ≠ get_network_name project_name)
  ∧ (∀ pid1 pid2 project_name command_name,
       get_cmd_container_name pid1 project_name command_name
       = get_cmd_container_name pid2 project_name command_name → pid1 = pid2).
Proof.
  unfold get_service_container_name, get_network_name, get_cmd_container_name.
  repeat split.
  - intros p s1 s2 E. by do 3 apply append_inv_head in E.
  - intros p1 p2 E. by apply append_inv_head in E.
  - intros p s E. apply append_inv_head in E.
    rewrite <- (append_empty_r p) in E at 2. apply append_inv_head in E.
    vm_compute in E. discriminate E.
  - intros pid1 pid2 p c E. do 5 apply append_inv_head in E.
    by apply (inj pretty).
Qed.

Lemma X8_names_are_distinct_witness :
  get_cmd_container_name 4711 "shop" "npm" ≠ get_cmd_container_name 4712 "shop" "npm"
  ∧ get_service_container_name "shop" "web" ≠ get_service_container_name "shop" "db".
Proof.
  destruct X8_names_are_distinct as (Hsvc & _ & _ & Hpid). split.
  - intros E. apply Hpid in E. discriminate E.
  - intros E. apply Hsvc in E. discriminate E.
Defined.

(* ===================================================================== *)
(** * What every builder keeps *)
(* ===================================================================== *)

Lemma set_Forall {K V} `{EqDecision K} (P : K * V → Prop) (d : PyDict.t K V) k v :
  Forall P d → P (k, v) → Forall P (PyDict.set d k v).
Proof.
  intros Hd Hv. induction Hd as [|[k' v'] r Hx Hr IH]; simpl.
  - by constructor.
  - case_decide; [subst|]; by constructor.
Qed.

Lemma fold_left_invariant {A B} (P : A → Prop) (f : A → B → A) (l : list B) (a : A) :
  (∀ a x, P a → P (f a x)) → P a → P (fold_left f l a).
Proof.
  intros Hf. revert a. induction l as [|x l IH]; intros a Ha; simpl; auto.
Qed.

Lemma well_formed_init image command : well_formed (ContainerBuilder_init image command).
Proof. repeat split; simpl; try apply NoDup_nil_2; try apply NoDup_singleton; done. Qed.

Lemma well_formed_set_env b k v : well_formed b → well_formed (set_env b k v).
Proof. intros (?&?&?&?&?). repeat split; simpl; try done. by apply set_NoDup. Qed.

Lemma well_formed_set_label b k v : well_formed b → well_formed (set_label b k v).
Proof. intros (?&?&?&?&?). repeat split; simpl; try done. by apply set_NoDup. Qed.

Lemma well_formed_set_port b k v : well_formed b → well_formed (set_port b k v).
Proof. intros (?&?&?&?&?). repeat split; simpl; try done. by apply set_NoDup. Qed.

Lemma well_formed_set_mount b hp cp m : well_formed b → well_formed (set_mount b hp cp m).
Proof.
  intros (?&?&?&?&?). repeat split; simpl; try done; [by apply set_NoDup|].
  by apply set_Forall.
Qed.

Lemma well_formed_apply_call b c : well_formed b → well_formed (apply_call b c).
Proof.
  destruct c; simpl; auto using well_formed_set_env, well_formed_set_label,
    well_formed_set_mount, well_formed_set_port.
Qed.

Lemma well_formed_set_env_all b d : well_formed b → well_formed (set_env_all b d).
Proof. apply fold_left_invariant. intros. by apply well_formed_set_env. Qed.

Lemma well_formed_set_label_all b d : well_formed b → well_formed (set_label_all b d).
Proof. apply fold_left_invariant. intros. by apply well_formed_set_label. Qed.

Lemma well_formed_set_port_all b d : well_formed b → well_formed (set_port_all b d).
Proof. apply fold_left_invariant. intros. by apply well_formed_set_port. Qed.

Lemma well_formed_set_mount_all b d : well_formed b → well_formed (set_mount_all b d).
Proof. apply fold_left_invariant. intros. by apply well_formed_set_mount. Qed.

Lemma well_formed_init_common {D} `{Document D} host (doc : D) image_config b h :
  well_formed b →
  ∃ b' h', _init_common host doc image_config b h = (inr b', h') ∧ well_formed b'.
Proof.
  intros Hb.
  destruct (parse_entrypoint_returns (ic_Entrypoint image_config) h) as (d & h' & E).
  eexists _, h'. split; [by apply init_common_eq|].
  apply well_formed_set_env_all, well_formed_set_mount_all.
  assert (∀ b0 e, well_formed b0 → well_formed (set_entrypoint b0 e)) as Hent
    by (by intros b0 e (?&?&?&?&?)).
  apply Hent, well_formed_set_env_all, well_formed_set_mount.
  by destruct Hb as (?&?&?&?&?).
Qed.

Lemma well_formed_run_op host b op h :
  well_formed b →
  ∃ b' h', run_op host b op h = (inr b', h') ∧ well_formed b'.
Proof.
  intros Hb.
  destruct op as [c| | | | | | |ic|service ic|alloc service|command_doc ic];
    try (eexists _, _; split; [reflexivity|]; by destruct Hb as (?&?&?&?&?)).
  - eexists _, _. split; [reflexivity|]. by apply well_formed_apply_call.
  - destruct (parse_entrypoint_returns (ic_Entrypoint ic) h) as (d & h' & E).
    eexists _, h'. split; [by apply enable_riptide_entrypoint_eq|].
    assert (∀ b0 e, well_formed b0 → well_formed (set_entrypoint b0 e)) as Hent
      by (by intros b0 e (?&?&?&?&?)).
    apply Hent, well_formed_set_env_all, well_formed_set_mount.
    by destruct Hb as (?&?&?&?&?).
  - destruct (well_formed_init_common host service ic b h Hb) as (self & h' & E & Hs).
    eexists _, h'. split; [by apply init_from_service_eq|].
    by apply well_formed_set_port_all, well_formed_set_label_all,
      well_formed_set_env_all.
  - eexists _, _. split; [reflexivity|]. unfold service_add_main_port.
    destruct (svc_port service); [|done].
    by apply well_formed_set_port, well_formed_set_label.
  - by apply well_formed_init_common.
Qed.

Lemma well_formed_run_ops host ops b h :
  well_formed b →
  ∃ b' h', run_ops host ops b h = (inr b', h') ∧ well_formed b'.
Proof.
  revert b h. induction ops as [|op ops IH]; intros b h Hb.
  - by exists b, h.
  - destruct (well_formed_run_op host b op h Hb) as (b1 & h1 & E1 & Hb1).
    destruct (IH b1 h1 Hb1) as (b' & h' & E & Hb').
    exists b', h'. split; [|exact Hb'].
    unfold run_ops in *. simpl. unfold mbind, M_bind at 1. by rewrite E1.
Qed.

(** X9. Every run of builder operations on a fresh builder returns
    without an exception, and the builder it reaches has one entry per
    environment variable, per label, per container port and per host
    path; hence the mounts of the argument bundle have pairwise different
    sources, and each of them is a bind mount with delegated
    consistency. *)
Theorem X9_builder_keeps_one_entry_per_key
    (host : Host) (image : string) (command : command_value) (ops : list Op)
    (h : store) (detach remove : bool) :
  ∃ b h',
    run_ops host ops (ContainerBuilder_init image command) h = (inr b, h') ∧
    NoDup (env b).*1 ∧ NoDup (labels b).*1 ∧ NoDup (ports b).*1 ∧
    NoDup (map Source (arg_mounts (build_docker_api detach remove b))) ∧
    Forall (fun m => Type_ m = "bind" ∧ Consistency m = "delegated")
      (arg_mounts (build_docker_api detach remove b)).
Proof.
  destruct (well_formed_run_ops host ops (ContainerBuilder_init image command) h
              (well_formed_init image command))
    as (b & h' & E & He & Hl & Hp & Hm & Hsrc).
  exists b, h'. split; [exact E|]. split; [exact He|]. split; [exact Hl|].
  split; [exact Hp|]. cbn [build_docker_api arg_mounts]. unfold PyDict.values.
  split.
  - assert (map Source (map snd (mounts b)) = (mounts b).*1) as ->; [|exact Hm].
    clear Hm. induction Hsrc as [|[k m] r (Hk & _) _ IH]; [done|].
    change (Source m :: map Source (map snd r) = k :: r.*1).
    simpl in Hk. by rewrite Hk, IH.
  - apply Forall_fmap. eapply Forall_impl; [exact Hsrc|].
    by intros [k m] (_ & ? & ?).
Qed.

(** X10. An attribute set to the empty string counts as not set: for the
    name, the network, the entrypoint, the working directory and the
    hostname, both emitters give what they give when the attribute is
    [None]. *)
Theorem X10_empty_attribute_is_unset
    (host : Host) (detach remove : bool) (b : ContainerBuilder) :
  (build_docker_cli host (set_name b "") = build_docker_cli host (with_name b None) ∧
   build_docker_api detach remove (set_name b "")
   = build_docker_api detach remove (with_name b None)) ∧
  (build_docker_cli host (set_network b "") = build_docker_cli host (with_network b None) ∧
   build_docker_api detach remove (set_network b "")
   = build_docker_api detach remove (with_network b None)) ∧
  (build_docker_cli host (set_entrypoint b "")
   = build_docker_cli host (with_entrypoint b None) ∧
   build_docker_api detach remove (set_entrypoint b "")
   = build_docker_api detach remove (with_entrypoint b None)) ∧
  (build_docker_cli host (set_workdir b "") = build_docker_cli host (with_work_dir b None) ∧
   build_docker_api detach remove (set_workdir b "")
   = build_docker_api detach remove (with_work_dir b None)) ∧
  (build_docker_cli host (set_hostname b "")
   = build_docker_cli host (with_hostname b None) ∧
   build_docker_api detach remove (set_hostname b "")
   = build_docker_api detach remove (with_hostname b None)).
Proof. repeat split. Qed.

(* ===================================================================== *)
(** * The command line, entry by entry *)
(* ===================================================================== *)

Lemma flat_map_entry {A} (f : A → list string) (l : list A) (x : A) :
  x ∈ l → ∃ pre post, flat_map f l = pre ++ f x ++ post.
Proof.
  intros Hin. apply list_elem_of_split in Hin as (l1 & l2 & ->).
  exists (flat_map f l1), (flat_map f l2). by rewrite flat_map_app.
Qed.

Lemma tokens_in_app {A} (T M P S : list A) :
  (∃ pre post, M = pre ++ T ++ post) →
  ∃ pre post, P ++ M ++ S = pre ++ T ++ post.
Proof.
  intros (pre & post & ->). exists (P ++ pre), (post ++ S).
  by rewrite <- !app_assoc.
Qed.

Lemma elem_of_values {K V} `{EqDecision K} (d : PyDict.t K V) k v :
  PyDict.get d k = Some v → v ∈ PyDict.values d.
Proof.
  intros Hget. apply get_Some_elem_of in Hget.
  unfold PyDict.values. apply list_elem_of_fmap. by exists (k, v).
Qed.

(** X11. Every entry of the four maps of the builder is on the command
    line: an environment variable as [-e name=value], a label as
    [--label name=value], a port as [-p host:container] with the host
    port first, and a mount as [-v] with its token. *)
Theorem X11_command_line_carries_every_entry (host : Host) (b : ContainerBuilder) :
  (∀ k v, PyDict.get (env b) k = Some v →
     ∃ pre post,
       build_docker_cli host b = pre ++ ["-e"; k +:+ "=" +:+ v] ++ post) ∧
  (∀ k v, PyDict.get (labels b) k = Some v →
     ∃ pre post,
       build_docker_cli host b = pre ++ ["--label"; k +:+ "=" +:+ v] ++ post) ∧
  (∀ container_port host_port,
     PyDict.get (ports b) container_port = Some host_port →
     ∃ pre post,
       build_docker_cli host b
       = pre ++ ["-p"; pretty host_port +:+ ":" +:+ pretty container_port] ++ post) ∧
  (∀ host_path m,
     PyDict.get (mounts b) host_path = Some m →
     ∃ pre post,
       build_docker_cli host b
       = pre ++ ["-v"; Source m +:+ ":" +:+ Target m +:+ ":" +:+ mode_text m
                       +:+ (if is_mac host then ":delegated" else "")] ++ post).
Proof.
  rewrite (build_docker_cli_structure host false true b).
  unfold cli_options.
  cbn [build_docker_api arg_environment arg_labels arg_ports arg_mounts].
  rewrite <- !app_assoc.
  split; [|split; [|split]].
  - intros k v Hget. apply tokens_in_app.
    by apply (flat_map_entry (fun kv => ["-e"; fst kv +:+ "=" +:+ snd kv]) _ (k, v)),
      get_Some_elem_of.
  - intros k v Hget. rewrite (app_assoc (cli_switches _)). apply tokens_in_app.
    by apply (flat_map_entry cli_label _ (k, v)), get_Some_elem_of.
  - intros c hp Hget. rewrite (app_assoc (cli_switches _)), (app_assoc (_ ++ _)).
    apply tokens_in_app.
    by apply (flat_map_entry
                (fun ch => ["-p"; pretty (snd ch) +:+ ":" +:+ pretty (fst ch)])
                _ (c, hp)), get_Some_elem_of.
  - intros hp m Hget.
    rewrite (app_assoc (cli_switches _)), (app_assoc (_ ++ _)),
      (app_assoc ((_ ++ _) ++ _)).
    apply tokens_in_app.
    by apply (flat_map_entry (cli_mount host) _ m), (elem_of_values _ hp).
Qed.

Lemma X11_command_line_carries_every_entry_witness :
  let b := set_port (set_env (ContainerBuilder_init "nginx" (CmdStr "nginx"))
                       "LANG" "C") 80 8080 in
  (∃ pre post, build_docker_cli linux_host b = pre ++ ["-e"; "LANG=C"] ++ post) ∧
  (∃ pre post, build_docker_cli linux_host b = pre ++ ["-p"; "8080:80"] ++ post).
Proof.
  intros b.
  destruct (X11_command_line_carries_every_entry linux_host b) as (He & _ & Hp & _).
  split.
  - apply (He "LANG" "C"). reflexivity.
  - apply (Hp 80 8080). reflexivity.
Defined.

(** X12. For every host and builder, the command line carries one [-v]
    token per mount, in the order of the mount map, just before the
    image. The token is host path, container path and mode, joined by
    colons, and it is followed by [:delegated] when, and only when, the
    system name of the host begins with [mac] in any letter case; on any
    other host the token ends with the mode. *)
Theorem X12_mount_tokens_and_platform (host : Host) (b : ContainerBuilder) :
  ∃ pre tokens,
    build_docker_cli host b
    = pre ++ flat_map (fun t => ["-v"; t]) tokens
      ++ [image b; str_command (command b) +:+ " " +:+ quoted_args (args b)]
    ∧ Forall2
        (fun m t =>
           t = Source m +:+ ":" +:+ Target m +:+ ":" +:+ mode_text m
               +:+ (if is_mac host then ":delegated" else "")
           ∧ (ends_with t ":delegated" ↔ is_mac host = true)
           ∧ (is_mac host = false → ends_with t (":" +:+ mode_text m)))
        (PyDict.values (mounts b)) tokens.
Proof. apply build_docker_cli_mount_tokens. Qed.

(* ===================================================================== *)
(** * From the main port to the address *)
(* ===================================================================== *)

(** X13. The address lookup reads back what the main-port step wrote:
    when a declared service has a port, the allocator answers [h], and
    the container of the derived name is running with the labels of the
    argument bundle built after [service_add_main_port], [address_for]
    returns the host [127.0.0.1] with the decimal text of [h] as port. *)
Theorem X13_address_for_reads_the_main_port
    (project : Project) (service_name : string) (service : Service)
    (alloc : Z → Z) (b : ContainerBuilder) (detach remove : bool) (w : World)
    (p : Z) :
  PyDict.get (proj_services project) service_name = Some service →
  svc_port service = Some p →
  docker_containers w (get_service_container_name (proj_name project) service_name)
  = inr (mkContainer "running"
           (arg_labels (build_docker_api detach remove
                          (service_add_main_port alloc service b)))) →
  address_for project service_name w
  = (inr (Some ("127.0.0.1", pretty (alloc DOCKER_ENGINE_HTTP_PORT_BND_START))), w).
Proof.
  intros Hget Hport Hc.
  unfold address_for, subscript, try_except, containers_get, mbind, M_bind.
  rewrite Hget. simpl. rewrite Hport. simpl. rewrite Hc. simpl.
  unfold service_add_main_port. rewrite Hport. simpl.
  by rewrite get_set_eq.
Qed.

Lemma X13_address_for_reads_the_main_port_witness :
  let b := service_add_main_port (fun _ => 30005) service_port_8080
             (ContainerBuilder_init "nginx" (CmdStr "nginx")) in
  let w := mkWorld
             (fun _ => inr (mkContainer "running"
                              (arg_labels (build_docker_api true false b))))
             ∅ 0 ∅ [] in
  address_for project_shop "web" w = (inr (Some ("127.0.0.1", "30005")), w).
Proof.
  intros b w.
  apply (X13_address_for_reads_the_main_port project_shop "web" service_port_8080
           (fun _ => 30005) (ContainerBuilder_init "nginx" (CmdStr "nginx"))
           true false w 8080); reflexivity.
Defined.

(* ===================================================================== *)
(** * Stopping and starting, and the rest of the world *)
(* ===================================================================== *)




Example stop_project_web_and_unknown :
  let r := stop_project project_shop ["web"; "unknown"] (empty_world, []) in
  fst r = inr [(0%nat, "web"); (1%nat, "unknown")] ∧
  snd (snd r) = [mkStopTask "shop" "web" 0; mkStopTask "shop" "unknown" 1].
Proof. by vm_compute. Qed.

(* ===================================================================== *)
(** * Pulling images *)
(* ===================================================================== *)

Lemma log_after_after log m1 i1 m2 i2 :
  log_after (log_after log m1 i1) m2 i2 = log_after log (m1 ++ m2) (i1 ++ i2).
Proof. unfold log_after. simpl. by rewrite <- !app_assoc. Qed.

Lemma log_after_nil log : log_after log [] [] = log.
Proof. destruct log. unfold log_after. simpl. by rewrite !app_nil_r. Qed.

Lemma for_loop_app {S A B} (l1 l2 : list A) (body : B → A → M S B) acc s :
  for_loop (l1 ++ l2) body acc s
  = match for_loop l1 body acc s with
    | (inl e, s') => (inl e, s')
    | (inr acc', s') => for_loop l2 body acc' s'
    end.
Proof.
  revert acc s. induction l1 as [|x l1 IH]; intros acc s; simpl; [done|].
  unfold mbind, M_bind. destruct (body acc x s) as [[e|acc'] s']; [done|].
  apply IH.
Qed.

Lemma for_loop_cons_ok {S A B} (x : A) (l : list A) (body : B → A → M S B)
    acc s acc' s' :
  body acc x s = (inr acc', s') →
  for_loop (x :: l) body acc s = for_loop l body acc' s'.
Proof. intros E. simpl. unfold mbind, M_bind. by rewrite E. Qed.

Lemma for_loop_cons_raise {S A B} (x : A) (l : list A) (body : B → A → M S B)
    acc s e s' :
  body acc x s = (inl e, s') →
  for_loop (x :: l) body acc s = (inl e, s').
Proof. intros E. simpl. unfold mbind, M_bind. by rewrite E. Qed.

Lemma bind_ok {S A B} (c : M S A) (k : A → M S B) s a s' :
  c s = (inr a, s') → (c ≫= k) s = k a s'.
Proof. intros E. unfold mbind, M_bind. by rewrite E. Qed.

Lemma bind_raise {S A B} (c : M S A) (k : A → M S B) s e s' :
  c s = (inl e, s') → (c ≫= k) s = (inl e, s').
Proof. intros E. unfold mbind, M_bind. by rewrite E. Qed.

Lemma update_func_then {A} (msg : string) (k : M PullLog A) log :
  (update_func msg;; k) log = k (log_after log [msg] []).
Proof.
  unfold mbind, M_bind, update_func, modify, log_after. simpl.
  by rewrite app_nil_r.
Qed.

Lemma pull_line_update_ok c line log :
  line_ok c line → ∃ u, pull_line_update c line log = (inr u, log).
Proof.
  unfold line_ok, pull_line_update, PyDict.mem, subscript, mbind, M_bind.
  destruct (json_loads c line) as [status|]; [|by eexists].
  intros [s Hs]. rewrite Hs.
  destruct (PyDict.get status "progress") as [p|]; by eexists.
Qed.

Lemma show_lines_cons c line_reset line lines log u :
  pull_line_update c line log = (inr u, log) →
  show_lines c line_reset (line :: lines) log
  = show_lines c line_reset lines (log_after log [line_reset +:+ "    " +:+ u] []).
Proof.
  intros Hu. unfold show_lines. simpl. unfold mbind, M_bind. rewrite Hu.
  unfold update_func, modify, log_after. simpl. by rewrite app_nil_r.
Qed.

Lemma show_lines_ok c line_reset lines log :
  Forall (line_ok c) lines →
  ∃ msgs, show_lines c line_reset lines log = (inr tt, log_after log msgs []).
Proof.
  intros Hok. revert log. induction Hok as [|line lines Hline _ IH]; intros log.
  - exists []. by rewrite log_after_nil.
  - destruct (pull_line_update_ok c line log Hline) as [u Hu].
    rewrite (show_lines_cons _ _ _ _ _ _ Hu).
    destruct (IH (log_after log [line_reset +:+ "    " +:+ u] [])) as [msgs ->].
    eexists. by rewrite log_after_after.
Qed.

Lemma pull_image_unfold c image_name line_reset log :
  __pull_image c image_name line_reset log
  = match show_lines c line_reset (stream_lines (client_api_pull c image_name))
            (log_after log [] [image_name]) with
    | (inl (APIError msg), log') =>
        if contains "404 Client Error" msg
        then (inr tt, log_after log'
                        [line_reset +:+ "    Warning: Image not found in repository."
                         +:+ nl] [])
        else (inl (APIError msg), log')
    | (inl e, log') => (inl e, log')
    | (inr _, log') =>
        match stream_error (client_api_pull c image_name) with
        | Some msg =>
            if contains "404 Client Error" msg
            then (inr tt, log_after log'
                            [line_reset +:+ "    Warning: Image not found in repository."
                             +:+ nl] [])
            else (inl (APIError msg), log')
        | None => (inr tt, log_after log' [line_reset +:+ "    Done!" +:+ nl] [])
        end
    end.
Proof.
  unfold __pull_image, try_except_APIError, mbind, M_bind, start_pull, modify,
    show_lines, log_after, raise, update_func. simpl.
  rewrite !app_nil_r.
  destruct (for_loop _ _ _ _) as [[e|[]] log']; simpl.
  - destruct e; try done. destruct (contains _ _); by rewrite ?app_nil_r.
  - destruct (stream_error _) as [msg|]; simpl; [|by rewrite ?app_nil_r].
    destruct (contains _ _); by rewrite ?app_nil_r.
Qed.

(** One image: a benign pull returns and records the image. *)
Lemma pull_image_benign c image_name line_reset log :
  pull_benign c image_name →
  ∃ msgs,
    __pull_image c image_name line_reset log
    = (inr tt, log_after log msgs [image_name]).
Proof.
  intros [Hlines Herr]. rewrite pull_image_unfold.
  destruct (show_lines_ok c line_reset _ (log_after log [] [image_name]) Hlines)
    as [msgs ->].
  destruct (stream_error _) as [msg|].
  - rewrite Herr. eexists. by rewrite !log_after_after, !app_nil_r.
  - eexists. by rewrite !log_after_after, !app_nil_r.
Qed.

(** One image: any other error of the registry comes out again. *)
Lemma pull_image_abort c image_name line_reset log msg :
  Forall (line_ok c) (stream_lines (client_api_pull c image_name)) →
  stream_error (client_api_pull c image_name) = Some msg →
  contains "404 Client Error" msg = false →
  ∃ msgs,
    __pull_image c image_name line_reset log
    = (inl (APIError msg), log_after log msgs [image_name]).
Proof.
  intros Hlines Herr H404. rewrite pull_image_unfold.
  destruct (show_lines_ok c line_reset _ (log_after log [] [image_name]) Hlines)
    as [msgs ->].
  rewrite Herr, H404. eexists. by rewrite !log_after_after, !app_nil_r.
Qed.

Lemma prefix_append (p y : string) : String.prefix p (p +:+ y) = true.
Proof.
  induction p as [|a p IH]; [by destruct y|].
  change (String.prefix (String a p) (String a (p +:+ y)) = true).
  simpl. destruct (Ascii.ascii_dec a a); [exact IH|done].
Qed.

Lemma contains_prefix (p s : string) : String.prefix p s = true → contains p s = true.
Proof.
  intros E. destruct s as [|a s].
  - change (contains p "") with (if String.prefix p "" then true else false).
    by rewrite E.
  - change (contains p (String a s))
      with (if String.prefix p (String a s) then true else contains p s).
    by rewrite E.
Qed.

Lemma contains_append (p x y : string) : contains p (x +:+ p +:+ y) = true.
Proof.
  induction x as [|a x IH].
  - change (contains p (p +:+ y) = true). apply contains_prefix, prefix_append.
  - change ((if String.prefix p (String a (x +:+ p +:+ y)) then true
             else contains p (x +:+ p +:+ y)) = true).
    by destruct (String.prefix _ _).
Qed.

(** X16. The image reference handed to the registry always has a colon:
    a reference with a colon is passed as it is, also when the colon
    belongs to a registry port, any other gets [:latest] appended; and
    tagging a tagged reference changes nothing. *)
Theorem X16_image_with_tag (image : string) :
  contains ":" (image_with_tag image) = true ∧
  (contains ":" image = true → image_with_tag image = image) ∧
  (contains ":" image = false → image_with_tag image = image +:+ ":latest") ∧
  image_with_tag (image_with_tag image) = image_with_tag image.
Proof.
  assert (contains ":" (image_with_tag image) = true) as Hc.
  { unfold image_with_tag. destruct (contains ":" image) eqn:E; [done|].
    apply (contains_append ":" image "latest"). }
  split; [exact Hc|]. unfold image_with_tag at 1 2.
  split; [by intros ->|]. split; [by intros ->|].
  unfold image_with_tag at 1. by rewrite Hc.
Qed.

Example image_with_tag_examples :
  image_with_tag "nginx" = "nginx:latest" ∧
  image_with_tag "nginx:1.25" = "nginx:1.25" ∧
  image_with_tag "localhost:5000/nginx" = "localhost:5000/nginx".
Proof. by vm_compute. Qed.

Lemma pull_services_ok c line_reset (services : list (string * string)) log :
  Forall (pull_benign c) (map image_with_tag (map snd services)) →
  ∃ msgs,
    for_loop services
      (fun _ ns =>
         update_func ("[service/" +:+ fst ns +:+ "] Pulling '" +:+ snd ns
                      +:+ "':" +:+ nl);;
         __pull_image c (image_with_tag (snd ns)) line_reset)
      tt log
    = (inr tt, log_after log msgs (map image_with_tag (map snd services))).
Proof.
  revert log. induction services as [|[n i] services IH]; intros log Hok.
  - exists []. by rewrite log_after_nil.
  - simpl in Hok. apply Forall_cons in Hok as [Hi Hok].
    destruct (pull_image_benign c (image_with_tag i) line_reset
                (log_after log ["[service/" +:+ n +:+ "] Pulling '" +:+ i
                                +:+ "':" +:+ nl] []) Hi) as [m1 E1].
    erewrite for_loop_cons_ok; [|by rewrite update_func_then; exact E1].
    destruct (IH (log_after
                    (log_after log ["[service/" +:+ n +:+ "] Pulling '" +:+ i
                                    +:+ "':" +:+ nl] [])
                    m1 [image_with_tag i]) Hok) as [m2 E2].
    rewrite E2. eexists. by rewrite !log_after_after.
Qed.

Lemma pull_commands_ok c line_reset (commands : list (string * option string)) log :
  Forall (pull_benign c) (map image_with_tag (omap snd commands)) →
  ∃ msgs,
    for_loop commands
      (fun _ nc =>
         match snd nc with
         | Some image =>
             update_func ("[command/" +:+ fst nc +:+ "] Pulling '" +:+ image
                          +:+ "':" +:+ nl);;
             __pull_image c (image_with_tag image) line_reset
         | None => mret tt
         end)
      tt log
    = (inr tt, log_after log msgs (map image_with_tag (omap snd commands))).
Proof.
  revert log. induction commands as [|[n [i|]] commands IH]; intros log Hok.
  - exists []. by rewrite log_after_nil.
  - simpl in Hok. apply Forall_cons in Hok as [Hi Hok].
    destruct (pull_image_benign c (image_with_tag i) line_reset
                (log_after log ["[command/" +:+ n +:+ "] Pulling '" +:+ i
                                +:+ "':" +:+ nl] []) Hi) as [m1 E1].
    erewrite for_loop_cons_ok;
      [|by cbn [snd fst]; rewrite update_func_then; exact E1].
    destruct (IH (log_after
                    (log_after log ["[command/" +:+ n +:+ "] Pulling '" +:+ i
                                    +:+ "':" +:+ nl] [])
                    m1 [image_with_tag i]) Hok) as [m2 E2].
    rewrite E2. eexists. by rewrite !log_after_after.
  - erewrite for_loop_cons_ok; [|reflexivity]. apply IH. exact Hok.
Qed.

(** X17. When the pull of every declared image either goes through or
    ends with a registry error whose text holds [404 Client Error], and
    each progress line is either not JSON or a JSON object with a
    status, [pull_images] returns without an exception; it has asked the
    registry for every image of a service and then for every image of a
    command that has one, each exactly once, in the order of
    declaration, each with its tag; and its last message is the closing
    [Done!]. *)
Theorem X17_pull_images_completes
    (c : PullClient) (app : PullApp) (line_reset : string) (log : PullLog) :
  Forall (pull_benign c) (map image_with_tag (declared_images app)) →
  ∃ msgs,
    pull_images c app line_reset log
    = (inr tt,
       log_after log (msgs ++ ["Done!" +:+ nl +:+ nl])
         (map image_with_tag (declared_images app))).
Proof.
  unfold declared_images. rewrite map_app, Forall_app. intros [Hs Hc].
  unfold pull_images.
  assert (∃ m1, (match pa_services app with
                 | Some services =>
                     for_loop (PyDict.items services)
                       (fun _ ns =>
                          update_func ("[service/" +:+ fst ns +:+ "] Pulling '"
                                       +:+ snd ns +:+ "':" +:+ nl);;
                          __pull_image c (image_with_tag (snd ns)) line_reset)
                       tt
                 | None => mret tt
                 end) log
                = (inr tt,
                   log_after log m1
                     (map image_with_tag
                        (match pa_services app with
                         | Some services => map snd services
                         | None => []
                         end)))) as [m1 E1].
  { destruct (pa_services app) as [services|].
    - by apply pull_services_ok.
    - exists []. by rewrite log_after_nil. }
  erewrite bind_ok; [|exact E1].
  set (log1 := log_after log m1 _).
  assert (∃ m2, (match pa_commands app with
                 | Some commands =>
                     for_loop (PyDict.items commands)
                       (fun _ nc =>
                          match snd nc with
                          | Some image =>
                              update_func ("[command/" +:+ fst nc +:+ "] Pulling '"
                                           +:+ image +:+ "':" +:+ nl);;
                              __pull_image c (image_with_tag image) line_reset
                          | None => mret tt
                          end)
                       tt
                 | None => mret tt
                 end) log1
                = (inr tt,
                   log_after log1 m2
                     (map image_with_tag
                        (match pa_commands app with
                         | Some commands => omap snd commands
                         | None => []
                         end)))) as [m2 E2].
  { destruct (pa_commands app) as [commands|].
    - by apply pull_commands_ok.
    - exists []. by rewrite log_after_nil. }
  erewrite bind_ok; [|exact E2].
  exists (m1 ++ m2). unfold update_func, modify. subst log1.
  rewrite log_after_after. unfold log_after. simpl.
  by rewrite <- !app_assoc.
Qed.

Lemma X17_pull_images_completes_witness :
  ∃ msgs,
    pull_images sample_client
      (mkPullApp (Some [("web", "nginx"); ("blog", "ghost")])
         (Some [("build", None); ("serve", Some "nginx:latest")]))
      nl empty_log
    = (inr tt,
       log_after empty_log (msgs ++ ["Done!" +:+ nl +:+ nl])
         ["nginx:latest"; "ghost:latest"; "nginx:latest"]).
Proof.
  apply (X17_pull_images_completes sample_client
           (mkPullApp (Some [("web", "nginx"); ("blog", "ghost")])
              (Some [("build", None); ("serve", Some "nginx:latest")]))
           nl empty_log).
  repeat constructor.
Defined.

(** X18. An error of the registry whose text does not hold
    [404 Client Error] stops [pull_images]: when the services before the
    failing image pull benignly, the error comes out of [pull_images] as
    it was raised, the failing image is the last one the registry was
    asked for, and no later service and no command is pulled. *)
Theorem X18_pull_images_aborts
    (c : PullClient) (app : PullApp) (line_reset : string) (log : PullLog)
    (before after : list (string * string)) (name image msg : string) :
  pa_services app = Some (before ++ (name, image) :: after) →
  Forall (pull_benign c) (map image_with_tag (map snd before)) →
  Forall (line_ok c) (stream_lines (client_api_pull c (image_with_tag image))) →
  stream_error (client_api_pull c (image_with_tag image)) = Some msg →
  contains "404 Client Error" msg = false →
  ∃ msgs,
    pull_images c app line_reset log
    = (inl (APIError msg),
       log_after log msgs (map image_with_tag (map snd before ++ [image]))).
Proof.
  intros Hs Hbefore Hlines Herr H404. unfold pull_images. rewrite Hs.
  unfold PyDict.items.
  destruct (pull_services_ok c line_reset before log Hbefore) as [m1 E1].
  destruct (pull_image_abort c (image_with_tag image) line_reset
              (log_after (log_after log m1 (map image_with_tag (map snd before)))
                 ["[service/" +:+ name +:+ "] Pulling '" +:+ image +:+ "':" +:+ nl] [])
              msg Hlines Herr H404) as [m2 E2].
  erewrite bind_raise;
    [|rewrite for_loop_app, E1;
      erewrite for_loop_cons_raise; [reflexivity|];
      by rewrite update_func_then; exact E2].
  eexists. rewrite !log_after_after, map_app. reflexivity.
Qed.

Lemma X18_pull_images_aborts_witness :
  ∃ msgs,
    pull_images sample_client
      (mkPullApp (Some [("web", "nginx"); ("db", "mysql:8"); ("blog", "ghost")])
         (Some [("serve", Some "nginx:latest")]))
      nl empty_log
    = (inl (APIError "500 Server Error"),
       log_after empty_log msgs ["nginx:latest"; "mysql:8"]).
Proof.
  apply (X18_pull_images_aborts sample_client _ nl empty_log
           [("web", "nginx")] [("blog", "ghost")] "db" "mysql:8" "500 Server Error").
  - reflexivity.
  - repeat constructor.
  - constructor.
  - reflexivity.
  - reflexivity.
Defined.


